(** * Bakery management system: the [BakeryManager] domain logic and the
    form handlers of [BakeryGUI] that change its lists.

    The program is Python (src/main.py).  Objects kept in the manager's lists
    are modelled as records, the four lists as Rocq lists, a dict as an
    insertion-ordered association list with distinct keys, and methods that
    mutate the manager as computations in a small state-and-exception monad.
    Python numbers are modelled as exact integers ([Z]); the rounding of
    binary floating point is outside the model, and a value that [float()]
    yields and no integer equals (a fraction, an infinity, NaN) has no
    counterpart here. *)

From Stdlib Require Import ZArith List Ascii String Bool Lia.
From Stdlib Require Import Permutation.
Import ListNotations.
Open Scope string_scope.
Open Scope list_scope.
Open Scope Z_scope.

(** Python's [==] on strings. *)
Infix "==" := String.eqb (at level 70, no associativity).

(** ** Python list and dict helpers *)

(** [[e x for x in l if cond x]]: the result list is built by appending. *)
Definition list_comp {A B : Type} (cond : A -> bool) (e : A -> B) (l : list A) : list B :=
  fold_left (fun acc x => if cond x then acc ++ [e x] else acc) l [].

(** [sum(l)]: Python starts from 0 and adds the elements from the left. *)
Definition py_sum (l : list Z) : Z := fold_left Z.add l 0.

(** The mathematical sum of a list, used in statements. *)
Fixpoint Zsum (l : list Z) : Z :=
  match l with
  | [] => 0
  | x :: l' => x + Zsum l'
  end.

(** [obj = next(x for x in l if f x); obj.field = ...]: the first element
    that satisfies [f] is mutated in place; the list keeps its shape. *)
Fixpoint update_first {A : Type} (f : A -> bool) (g : A -> A) (l : list A) : list A :=
  match l with
  | [] => []
  | x :: l' => if f x then g x :: l' else x :: update_first f g l'
  end.

(** Removal of the first element that satisfies [f] (a [del l[idx]] inside
    a loop that breaks at the first match). *)
Fixpoint remove_first {A : Type} (f : A -> bool) (l : list A) : list A :=
  match l with
  | [] => []
  | x :: l' => if f x then l' else x :: remove_first f l'
  end.

(** [del l[i]] for an index already known to be in range. *)
Fixpoint delete_at {A : Type} (i : nat) (l : list A) : list A :=
  match l, i with
  | [], _ => []
  | _ :: l', O => l'
  | x :: l', S i' => x :: delete_at i' l'
  end.

(** Python's index normalisation: a negative index counts from the end;
    [None] stands for IndexError. *)
Definition py_index (len : nat) (index : Z) : option nat :=
  if (0 <=? index) && (index <? Z.of_nat len) then Some (Z.to_nat index)
  else if (index <? 0) && (- Z.of_nat len <=? index) then Some (Z.to_nat (Z.of_nat len + index))
  else None.

(** A dict from strings to numbers, in insertion order. *)
Definition dict := list (string * Z).

Definition dict_wf (d : dict) : Prop := NoDup (map fst d).

Definition dict_get (k : string) (d : dict) : option Z :=
  option_map snd (find (fun kv => fst kv == k) d).

Definition dict_mem (k : string) (d : dict) : bool :=
  existsb (fun kv => fst kv == k) d.

(** [d[k] = v]: an existing key keeps its position, a new key goes last. *)
Fixpoint dict_set (k : string) (v : Z) (d : dict) : dict :=
  match d with
  | [] => [(k, v)]
  | (k', v') :: d' => if k' == k then (k, v) :: d' else (k', v') :: dict_set k v d'
  end.

(** [del d[k]] for a key known to be present. *)
Definition dict_del (k : string) (d : dict) : dict :=
  remove_first (fun kv => fst kv == k) d.

(** ** Data model *)

Module Ingredient.
Record t := init
  { name : string;
    quantity : Z;
    unit : string;
    reorder_level : Z }.
End Ingredient.

Module Product.
Record t := init
  { name : string;
    price : Z;
    recipe : dict;
    quantity : Z }.

Definition with_quantity (q : Z) (p : t) : t :=
  {| name := name p; price := price p; recipe := recipe p; quantity := q |}.
End Product.

Module Order.
Record t := make
  { order_id : string;
    customer_name : string;
    items : dict;
    total : Z;
    status : string;
    timestamp : Z }.

(** The two readings of [datetime.now()] taken by the constructor when no
    [order_id] and no [timestamp] are passed: the first formatted with
    [strftime("%Y%m%d%H%M%S")], the second kept as a point in time. *)
Record clock := { now_strftime : string; now : Z }.

(** [Order(customer_name, items)] with the defaults [total=0],
    [status="Pending"]. *)
Definition init (c : clock) (customer_name : string) (items : dict) : t :=
  {| order_id := now_strftime c;
     customer_name := customer_name;
     items := items;
     total := 0;
     status := "Pending";
     timestamp := now c |}.

Definition with_total (x : Z) (o : t) : t :=
  {| order_id := order_id o; customer_name := customer_name o; items := items o;
     total := x; status := status o; timestamp := timestamp o |}.

Definition with_status (s : string) (o : t) : t :=
  {| order_id := order_id o; customer_name := customer_name o; items := items o;
     total := total o; status := s; timestamp := timestamp o |}.

Definition with_items (d : dict) (o : t) : t :=
  {| order_id := order_id o; customer_name := customer_name o; items := d;
     total := total o; status := status o; timestamp := timestamp o |}.
End Order.

Module Staff.
Record t := init
  { name : string;
    role : string;
    shifts : list string }.
End Staff.

(** The four in-memory collections of a [BakeryManager]. *)
Record BakeryManager := mkManager
  { ingredients : list Ingredient.t;
    products : list Product.t;
    orders : list Order.t;
    staff : list Staff.t }.

(** The manager object together with what the four JSON files hold. *)
Record World := mkWorld
  { self : BakeryManager;
    disk : BakeryManager }.

Definition set_ingredients (l : list Ingredient.t) (m : BakeryManager) : BakeryManager :=
  {| ingredients := l; products := products m; orders := orders m; staff := staff m |}.
Definition set_products (l : list Product.t) (m : BakeryManager) : BakeryManager :=
  {| ingredients := ingredients m; products := l; orders := orders m; staff := staff m |}.
Definition set_orders (l : list Order.t) (m : BakeryManager) : BakeryManager :=
  {| ingredients := ingredients m; products := products m; orders := l; staff := staff m |}.
Definition set_staff (l : list Staff.t) (m : BakeryManager) : BakeryManager :=
  {| ingredients := ingredients m; products := products m; orders := orders m; staff := l |}.

(** ** State and exceptions *)

Inductive exn := StopIteration.

Inductive outcome (A : Type) :=
| Returned (a : A)
| Raised (e : exn).
Arguments Returned {A} a.
Arguments Raised {A} e.

(** A method call: it ends by returning or by raising, and in both cases
    leaves the mutations done so far. *)
Definition M (A : Type) : Type := World -> outcome A * World.

Definition ret {A : Type} (a : A) : M A := fun w => (Returned a, w).

Definition bind {A B : Type} (m : M A) (k : A -> M B) : M B :=
  fun w =>
    match m w with
    | (Returned a, w') => k a w'
    | (Raised e, w') => (Raised e, w')
    end.

Definition raise {A : Type} (e : exn) : M A := fun w => (Raised e, w).

Definition gets {A : Type} (f : BakeryManager -> A) : M A :=
  fun w => (Returned (f (self w)), w).

Definition modify (f : BakeryManager -> BakeryManager) : M unit :=
  fun w => (Returned tt, {| self := f (self w); disk := disk w |}).

Notation "x <- m ;; k" := (bind m (fun x => k))
  (at level 61, m at next level, right associativity).
Notation "m ;; k" := (bind m (fun _ => k))
  (at level 61, right associativity).

(** [for x in l: body x] *)
Fixpoint for_each {X : Type} (l : list X) (body : X -> M unit) : M unit :=
  match l with
  | [] => ret tt
  | x :: l' => body x ;; for_each l' body
  end.

(** ** BakeryManager *)

(** [save_data]: each of the four lists is dumped whole to its file. *)
Definition save_data : M unit :=
  fun w => (Returned tt, {| self := self w; disk := self w |}).

Definition add_ingredient (name : string) (quantity : Z) (unit : string) (reorder_level : Z)
  : M Datatypes.unit :=
  modify (fun m => set_ingredients
            (ingredients m ++ [Ingredient.init name quantity unit reorder_level]) m) ;;
  save_data.

(** The loop returns at the first ingredient with that name. *)
Fixpoint restock_in (name : string) (quantity : Z) (l : list Ingredient.t)
  : option (list Ingredient.t) :=
  match l with
  | [] => None
  | ingredient :: l' =>
      if Ingredient.name ingredient == name
      then Some (Ingredient.init (Ingredient.name ingredient)
                   (Ingredient.quantity ingredient + quantity)
                   (Ingredient.unit ingredient)
                   (Ingredient.reorder_level ingredient) :: l')
      else option_map (cons ingredient) (restock_in name quantity l')
  end.

Definition restock_ingredient (name : string) (quantity : Z) : M bool :=
  ings <- gets ingredients ;;
  match restock_in name quantity ings with
  | Some ings' => modify (set_ingredients ings') ;; save_data ;; ret true
  | None => ret false
  end.

Definition check_low_stock (m : BakeryManager) : list Ingredient.t :=
  list_comp (fun ing => Ingredient.quantity ing <? Ingredient.reorder_level ing)
            (fun ing => ing) (ingredients m).

Definition add_product (name : string) (price : Z) (recipe : dict) (quantity : Z) : M unit :=
  modify (fun m => set_products (products m ++ [Product.init name price recipe quantity]) m) ;;
  save_data.

(** [next((p for p in self.products if p.name == product_name), None)] *)
Definition next_product (product_name : string) (ps : list Product.t) : option Product.t :=
  find (fun p => Product.name p == product_name) ps.

Definition get_product_price (m : BakeryManager) (product_name : string) : Z :=
  match next_product product_name (products m) with
  | Some product => Product.price product
  | None => 0
  end.

(** The first loop of [create_order]: it returns False at the first item
    whose product is missing or short of stock. *)
Fixpoint items_in_stock (ps : list Product.t) (items : dict) : bool :=
  match items with
  | [] => true
  | (product_name, qty) :: rest =>
      match next_product product_name ps with
      | None => false
      | Some product =>
          if Product.quantity product <? qty then false
          else items_in_stock ps rest
      end
  end.

(** [product = next(p for p in self.products if ...)] followed by an
    assignment to a field of [product]: the first product with that name is
    the object that changes.  The objects of a list are distinct (each comes
    from its own constructor call), so no other entry changes with it. *)
Definition on_product (product_name : string) (g : Product.t -> Product.t) : M unit :=
  modify (fun m =>
    set_products (update_first (fun p => Product.name p == product_name) g (products m)) m).

(** One round of the second loop: [next] without a default raises
    StopIteration when no product has that name. *)
Definition deduct (item : string * Z) : M unit :=
  let '(product_name, qty) := item in
  ps <- gets products ;;
  match next_product product_name ps with
  | None => raise StopIteration
  | Some _ =>
      on_product product_name (fun p => Product.with_quantity (Product.quantity p - qty) p)
  end.

Definition create_order (c : Order.clock) (customer_name : string) (items : dict) : M bool :=
  ps <- gets products ;;
  if negb (items_in_stock ps items) then ret false
  else
    for_each items deduct ;;
    let order := Order.init c customer_name items in
    m <- gets (fun m => m) ;;
    let order :=
      Order.with_total
        (py_sum (map (fun '(name, qty) => get_product_price m name * qty) items)) order in
    modify (fun m => set_orders (orders m ++ [order]) m) ;;
    save_data ;;
    ret true.

Definition add_staff (name : string) (role : string) (shifts : list string) : M unit :=
  modify (fun m => set_staff (staff m ++ [Staff.init name role shifts]) m) ;;
  save_data.

(** [sorted(..., key=lambda x: x[1], reverse=True)]: a stable sort by
    decreasing count. *)
Fixpoint insert_desc (x : string * Z) (l : list (string * Z)) : list (string * Z) :=
  match l with
  | [] => [x]
  | y :: l' => if snd y <? snd x then x :: y :: l' else y :: insert_desc x l'
  end.

Definition sorted_desc (l : list (string * Z)) : list (string * Z) :=
  fold_left (fun acc x => insert_desc x acc) l [].

Definition get_popular_products (m : BakeryManager) : list (string * Z) :=
  let product_counts :=
    fold_left
      (fun counts order =>
         fold_left
           (fun counts '(product, qty) =>
              dict_set product
                (match dict_get product counts with Some n => n | None => 0 end + qty)
                counts)
           (Order.items order) counts)
      (orders m) [] in
  sorted_desc product_counts.

Record sales_report :=
  { total_sales : Z;
    total_orders : Z;
    popular_products : list (string * Z) }.

Definition generate_sales_report (m : BakeryManager) : sales_report :=
  {| total_sales :=
       py_sum (list_comp (fun order => Order.status order == "Completed")
                 Order.total (orders m));
     total_orders := Z.of_nat (List.length (orders m));
     popular_products := get_popular_products m |}.

(** ** BakeryGUI: the handlers that change the manager's lists *)

(** What a message box shows; the f-string messages keep their arguments. *)
Inductive message :=
| Text (s : string)
| RoleExists (roll name : string)
| OnlyAvailable (available : Z) (product_name : string)
| AddedToOrder (quantity : Z) (product_name order_id : string)
| AddedUnits (quantity : Z) (product_name : string).

Inductive dialog :=
| showerror (msg : message)
| showinfo (msg : message).

(** The Python built-ins the handlers call on the text of the entry
    fields.  [None] stands for ValueError; [py_float] yields the number as
    the model holds it. *)
Class Builtins :=
  { py_int : string -> option Z;
    py_float : string -> option Z;
    py_strip : string -> string;
    py_split : string -> string -> list string }.

(** [order = next(o for o in self.manager.orders if ...)] followed by an
    assignment to a field of [order]. *)
Definition on_order (order_id : string) (g : Order.t -> Order.t) : M unit :=
  modify (fun m =>
    set_orders (update_first (fun o => Order.order_id o == order_id) g (orders m)) m).

Definition next_order (order_id : string) (os : list Order.t) : option Order.t :=
  find (fun o => Order.order_id o == order_id) os.

Definition error (s : string) : M (option dialog) := ret (Some (showerror (Text s))).

Section GUI.
Context {B : Builtins}.

(** [update_order_status_window.submit]; the arguments are what
    [get_value] gives for the three entries. *)
Definition update_order_status_submit (order_id product_name quantity : string)
  : M (option dialog) :=
  if (order_id == "") || (product_name == "") || (quantity == "")
  then error "All fields are required!"
  else
    match py_float quantity with
    | None => error "Invalid quantity! Must be positive number."
    | Some quantity =>
        if quantity <=? 0 then error "Invalid quantity! Must be positive number."
        else
          os <- gets orders ;;
          match next_order order_id os with
          | None => error "Order not found!"
          | Some order =>
              ps <- gets products ;;
              match next_product product_name ps with
              | None => error "Product not found!"
              | Some product =>
                  if Product.quantity product <? quantity
                  then ret (Some (showerror
                              (OnlyAvailable (Product.quantity product) product_name)))
                  else
                    on_order order_id (fun o =>
                      Order.with_items
                        (match dict_get product_name (Order.items o) with
                         | Some n => dict_set product_name (n + quantity) (Order.items o)
                         | None => dict_set product_name quantity (Order.items o)
                         end) o) ;;
                    on_order order_id (fun o =>
                      Order.with_total
                        (Order.total o + Product.price product * quantity) o) ;;
                    on_product product_name (fun p =>
                      Product.with_quantity (Product.quantity p - quantity) p) ;;
                    on_order order_id (Order.with_status "Updated") ;;
                    save_data ;;
                    ret (Some (showinfo (AddedToOrder quantity product_name order_id)))
              end
          end
    end.

(** [add_staff_window.submit] *)
Definition add_staff_submit (name roll shifts_input : string) : M (option dialog) :=
  if (name == "") && (roll == "") && (shifts_input == "")
  then error "All fields are required!"
  else if name == "" then error "Name is required!"
  else if roll == "" then error "Role is required!"
  else
    match py_int roll with
    | None => error "Role must be a numeric ID "
    | Some role_id =>
        if shifts_input == "" then error "Shifts are required!"
        else
          st <- gets staff ;;
          match find (fun s => Staff.role s == roll) st with
          | Some existing_staff =>
              ret (Some (showerror (RoleExists roll (Staff.name existing_staff))))
          | None =>
              let shifts :=
                list_comp (fun shift => negb (py_strip shift == "")) py_strip
                  (py_split shifts_input ",") in
              match shifts with
              | [] => error "At least one valid shift must be provided!"
              | _ :: _ =>
                  add_staff name roll shifts ;;
                  ret (Some (showinfo (Text "Staff member added!")))
              end
          end
    end.

(** [product_status_window.submit] *)
Definition product_status_submit (product_name quantity : string) : M (option dialog) :=
  if (product_name == "") || (quantity == "")
  then error "Both fields are required!"
  else
    match py_float quantity with
    | None => error "Invalid quantity input!"
    | Some quantity =>
        ps <- gets products ;;
        match next_product product_name ps with
        | Some _ =>
            on_product product_name (fun p =>
              Product.with_quantity (Product.quantity p + quantity) p) ;;
            save_data ;;
            ret (Some (showinfo (AddedUnits quantity product_name)))
        | None => error "Product not found!"
        end
    end.
End GUI.

(** [pending_orders.mark_orders_complete]; [selected_orders] is the set of
    ticked order ids. *)
Definition mark_orders_complete (selected_orders : list string) : M unit :=
  modify (fun m =>
    set_orders
      (map (fun order =>
              if existsb (fun id => Order.order_id order == id) selected_orders
              then Order.with_status "Completed" order
              else order)
         (orders m)) m) ;;
  save_data.

(** [view_products.delete_product]; [confirm] is the answer to askyesno. *)
Definition delete_product (product_name : string) (confirm : bool) : M unit :=
  if confirm then
    modify (fun m =>
      set_products
        (list_comp (fun p => negb (Product.name p == product_name)) (fun p => p) (products m))
        m) ;;
    save_data
  else ret tt.

(** The delete column of [view_orders]: the loop stops at the first order
    with that id, which is deleted when the user confirms. *)
Definition delete_order (order_id : string) (confirm : bool) : M unit :=
  os <- gets orders ;;
  match next_order order_id os with
  | Some _ =>
      if confirm then
        modify (fun m =>
          set_orders (remove_first (fun o => Order.order_id o == order_id) (orders m)) m) ;;
        save_data
      else ret tt
  | None => ret tt
  end.

(** The delete column of [sold_items]. *)
Definition delete_sold_item (product_name order_id : string) (confirm : bool) : M unit :=
  if confirm then
    os <- gets orders ;;
    match next_order order_id os with
    | Some order =>
        if dict_mem product_name (Order.items order) then
          on_order order_id (fun o =>
            Order.with_items (dict_del product_name (Order.items o)) o) ;;
          save_data
        else ret tt
    | None => ret tt
    end
  else ret tt.

(** [view_staff.delete_staff] *)
Definition delete_staff (index : Z) (confirm : bool) : M (option dialog) :=
  st <- gets staff ;;
  if (0 <=? index) && (index <? Z.of_nat (List.length st)) then
    if confirm then
      modify (fun m => set_staff (delete_at (Z.to_nat index) (staff m)) m) ;;
      save_data ;;
      ret None
    else ret None
  else error "Invalid staff member selection!".

(** [view_inventory.delete_ingredient]: the IndexError of an index out of
    range is caught. *)
Definition delete_ingredient (index : Z) (confirm : bool) : M (option dialog) :=
  ings <- gets ingredients ;;
  match py_index (List.length ings) index with
  | None => error "Ingredient not found!"
  | Some i =>
      if confirm then
        modify (fun m => set_ingredients (delete_at i (ingredients m)) m) ;;
        save_data ;;
        ret None
      else ret None
  end.

(** ** The operations as one transition system *)

(** Every call that changes one of the four lists.  The forms that only read
    their fields and then call a manager method (add ingredient, restock,
    add product, create order) reach the lists through that method, which
    is the operation listed here, for any arguments. *)

Inductive op :=
| AddIngredient (name : string) (quantity : Z) (unit : string) (reorder_level : Z)
| RestockIngredient (name : string) (quantity : Z)
| AddProduct (name : string) (price : Z) (recipe : dict) (quantity : Z)
| CreateOrder (c : Order.clock) (customer_name : string) (items : dict)
| AddStaff (name role : string) (shifts : list string)
| UpdateOrderStatusSubmit (order_id product_name quantity : string)
| AddStaffSubmit (name roll shifts_input : string)
| ProductStatusSubmit (product_name quantity : string)
| MarkOrdersComplete (selected_orders : list string)
| DeleteProduct (product_name : string) (confirm : bool)
| DeleteOrder (order_id : string) (confirm : bool)
| DeleteSoldItem (product_name order_id : string) (confirm : bool)
| DeleteStaff (index : Z) (confirm : bool)
| DeleteIngredient (index : Z) (confirm : bool).

(** The world a call leaves behind. *)
Definition exec {A : Type} (m : M A) (w : World) : World := snd (m w).

Definition step {B : Builtins} (o : op) (w : World) : World :=
  match o with
  | AddIngredient name quantity unit reorder_level =>
      exec (add_ingredient name quantity unit reorder_level) w
  | RestockIngredient name quantity => exec (restock_ingredient name quantity) w
  | AddProduct name price recipe quantity => exec (add_product name price recipe quantity) w
  | CreateOrder c customer_name items => exec (create_order c customer_name items) w
  | AddStaff name role shifts => exec (add_staff name role shifts) w
  | UpdateOrderStatusSubmit order_id product_name quantity =>
      exec (update_order_status_submit order_id product_name quantity) w
  | AddStaffSubmit name roll shifts_input => exec (add_staff_submit name roll shifts_input) w
  | ProductStatusSubmit product_name quantity =>
      exec (product_status_submit product_name quantity) w
  | MarkOrdersComplete selected_orders => exec (mark_orders_complete selected_orders) w
  | DeleteProduct product_name confirm => exec (delete_product product_name confirm) w
  | DeleteOrder order_id confirm => exec (delete_order order_id confirm) w
  | DeleteSoldItem product_name order_id confirm =>
      exec (delete_sold_item product_name order_id confirm) w
  | DeleteStaff index confirm => exec (delete_staff index confirm) w
  | DeleteIngredient index confirm => exec (delete_ingredient index confirm) w
  end.

(** ** BakeryGUI: the forms that call a manager method *)

Section Entry_forms.
Context {B : Builtins}.

(** The loop of [submit_order] over the item rows.  A row is what
    [get_value] gives for its product entry and its quantity entry; a row
    with an empty field is skipped; [None] stands for the ValueError of
    [int(quantity)], which ends the handler. *)
Fixpoint order_rows (rows : list (string * string)) (items : dict) : option dict :=
  match rows with
  | [] => Some items
  | (product, quantity) :: rows' =>
      if (product == "") || (quantity == "") then order_rows rows' items
      else
        match py_int quantity with
        | None => None
        | Some qty => order_rows rows' (dict_set product qty items)
        end
  end.

(** [create_order_window.submit_order] *)
Definition submit_order (c : Order.clock) (customer : string) (rows : list (string * string))
  : M (option dialog) :=
  match order_rows rows [] with
  | None => error "Invalid quantity input!"
  | Some items =>
      match customer, items with
      | EmptyString, _ | _, [] => error "Customer name and items are required!"
      | _, _ =>
          ps <- gets products ;;
          let invalid_products :=
            list_comp
              (fun product_name =>
                 negb (existsb (fun p => Product.name p == product_name) ps))
              (fun product_name => product_name) (map fst items) in
          match invalid_products with
          | _ :: _ =>
              ret (Some (showerror
                     (Text ("Product(s) not found: " ++ String.concat ", " invalid_products))))
          | [] =>
              created <- create_order c customer items ;;
              if created then ret (Some (showinfo (Text "Order created successfully!")))
              else error "Insufficient stock for some ingredients!"
          end
      end
  end.

(** The loop of [submit_product] over the ingredient rows.  Its body
    assigns the quantity entry of the row to [quantity_entry], the name of
    the handler's own parameter, so the loop carries that variable (as the
    text [get_value] gives for it) along with the recipe. *)
Fixpoint recipe_rows (rows : list (string * string)) (recipe : dict) (quantity_entry : string)
  : option (dict * string) :=
  match rows with
  | [] => Some (recipe, quantity_entry)
  | (ingredient, quantity) :: rows' =>
      if (ingredient == "") || (quantity == "") then recipe_rows rows' recipe quantity
      else
        match py_float quantity with
        | None => None
        | Some q => recipe_rows rows' (dict_set ingredient q recipe) quantity
        end
  end.

(** [add_product_window.submit_product]; [name_entry], [price_entry] and
    [quantity_entry] are the texts of the three entries of the form. *)
Definition submit_product (name_entry price_entry quantity_entry : string)
    (rows : list (string * string)) : M (option dialog) :=
  match recipe_rows rows [] quantity_entry with
  | None => error "Invalid numeric input!"
  | Some (recipe, quantity) =>
      let product_name := name_entry in
      match product_name, recipe, quantity with
      | EmptyString, _, _ | _, [], _ | _, _, EmptyString =>
          error "Product name, quantity, and at least one ingredient are required!"
      | _, _, _ =>
          match py_float price_entry with
          | None => error "Invalid numeric input!"
          | Some price =>
              match py_float quantity with
              | None => error "Invalid numeric input!"
              | Some quantity =>
                  add_product product_name price recipe quantity ;;
                  ret (Some (showinfo (Text "Product added!")))
              end
          end
      end
  end.

(** [add_ingredient_window.submit] *)
Definition add_ingredient_submit (name_entry quantity_entry unit_entry reorder_entry : string)
  : M (option dialog) :=
  if existsb (fun v => v == "") [name_entry; quantity_entry; unit_entry; reorder_entry]
  then error "All fields are required."
  else
    match py_float quantity_entry with
    | None => error "Invalid numeric input!"
    | Some quantity =>
        match py_float reorder_entry with
        | None => error "Invalid numeric input!"
        | Some reorder_level =>
            add_ingredient name_entry quantity unit_entry reorder_level ;;
            ret (Some (showinfo (Text "Ingredient added!")))
        end
    end.

(** [restock_ingredient_window.submit]: with an empty field it returns
    without a message. *)
Definition restock_submit (name quantity : string) : M (option dialog) :=
  if (name == "") || (quantity == "") then ret None
  else
    match py_float quantity with
    | None =>
        error ("Invalid quantity input! " ++ String (ascii_of_nat 10) "Please add Numeric Input")
    | Some quantity =>
        restocked <- restock_ingredient name quantity ;;
        if restocked then ret (Some (showinfo (Text "Restocked successfully!")))
        else error "Ingredient not found!"
    end.
End Entry_forms.

(** ** BakeryGUI: the report views *)

(** A line of the sold-items table. *)
Record sold_row := mkSoldRow
  { row_customer_name : string;
    row_order_id : string;
    row_product_name : string;
    row_qty : Z;
    row_revenue : Z }.

(** The insert loop of [sold_items]: the lines of the table and
    [total_revenue]. *)
Definition sold_items (m : BakeryManager) : list sold_row * Z :=
  fold_left
    (fun acc order =>
       if Order.status order == "Completed" then
         fold_left
           (fun '(rows, total_revenue) '(product_name, qty) =>
              let price := get_product_price m product_name in
              let revenue := price * qty in
              (rows ++ [mkSoldRow (Order.customer_name order) (Order.order_id order)
                          product_name qty revenue],
               total_revenue + revenue))
           (Order.items order) acc
       else acc)
    (orders m) ([], 0).




(** An interpretation of the built-ins on plain text, to run the handlers
    on examples; the theorems below hold for every interpretation.  [int]
    and [float] are covered on decimal numerals with an optional sign, where
    both give that integer; a text that [float()] reads as another number
    (1.5, 1e3, nan, inf) denotes no integer and lies outside this instance.
    [strip] removes the ASCII white space of Python at both ends; [split]
    is covered for a separator of one character. *)
Module Plain.
Definition is_digit (c : Ascii.ascii) : bool :=
  let n := Ascii.nat_of_ascii c in (48 <=? n)%nat && (n <=? 57)%nat.

Definition is_space (c : Ascii.ascii) : bool :=
  let n := Ascii.nat_of_ascii c in
  ((9 <=? n)%nat && (n <=? 13)%nat) || ((28 <=? n)%nat && (n <=? 32)%nat).

Fixpoint digits (s : string) (acc : Z) : option Z :=
  match s with
  | EmptyString => Some acc
  | String c s' =>
      if is_digit c
      then digits s' (10 * acc + (Z.of_nat (Ascii.nat_of_ascii c) - 48))
      else None
  end.

Definition unsigned (s : string) : option Z :=
  match s with
  | EmptyString => None
  | _ => digits s 0
  end.

Definition numeral (s : string) : option Z :=
  match s with
  | String "-"%char s' => option_map Z.opp (unsigned s')
  | String "+"%char s' => unsigned s'
  | _ => unsigned s
  end.

Fixpoint lstrip (s : string) : string :=
  match s with
  | String c s' => if is_space c then lstrip s' else s
  | EmptyString => EmptyString
  end.

Fixpoint rstrip (s : string) : string :=
  match s with
  | EmptyString => EmptyString
  | String c s' =>
      match rstrip s' with
      | EmptyString => if is_space c then EmptyString else String c EmptyString
      | r => String c r
      end
  end.

Fixpoint split_char (sep : Ascii.ascii) (s : string) (cur : string) : list string :=
  match s with
  | EmptyString => [cur]
  | String c s' =>
      if Ascii.eqb c sep then cur :: split_char sep s' EmptyString
      else split_char sep s' (cur ++ String c EmptyString)%string
  end.

Definition split (s sep : string) : list string :=
  match sep with
  | String c EmptyString => split_char c s EmptyString
  | _ => [s]
  end.

Definition builtins : Builtins :=
  {| py_int := numeral;
     py_float := numeral;
     py_strip := fun s => rstrip (lstrip s);
     py_split := split |}.
End Plain.

(** ** Notions used in the statements *)

(** The products after the second loop of [create_order] has run over
    [items]. *)
Definition deduct_all (items : dict) (ps : list Product.t) : list Product.t :=
  fold_left
    (fun ps item =>
       update_first (fun p => Product.name p == fst item)
         (fun p => Product.with_quantity (Product.quantity p - snd item) p) ps)
    items ps.

(** The quantity that [items] asks of the product name [n]. *)
Definition ordered (n : string) (items : dict) : Z :=
  Zsum (map snd (filter (fun kv => fst kv == n) items)).

(** The world [create_order] leaves when it returns True. *)
Definition order_created (c : Order.clock) (customer_name : string) (items : dict) (w : World)
  : World :=
  let m1 := set_products (deduct_all items (products (self w))) (self w) in
  let order :=
    Order.with_total
      (py_sum (map (fun '(name, qty) => get_product_price m1 name * qty) items))
      (Order.init c customer_name items) in
  let m2 := set_orders (orders m1 ++ [order]) m1 in
  {| self := m2; disk := m2 |}.

(** The three values the status of an order is meant to take. *)
Definition status_ok (o : Order.t) : Prop :=
  In (Order.status o) ["Pending"; "Completed"; "Updated"].

Definition statuses_ok (w : World) : Prop := Forall status_ok (orders (self w)).

(** Pairwise distinct staff roles. *)
Definition roles_distinct (w : World) : Prop := NoDup (map Staff.role (staff (self w))).

(** ** Sample states *)

Module Sample.
Definition clock : Order.clock :=
  {| Order.now_strftime := "20240101120000"; Order.now := 1704110400 |}.

Definition lists : BakeryManager :=
  {| ingredients :=
       [ Ingredient.init "flour" 5 "kg" 10;
         Ingredient.init "sugar" 10 "kg" 10;
         Ingredient.init "yeast" 20 "g" 5 ];
     products :=
       [ Product.init "bread" 3 [("flour", 2); ("yeast", 1)] 10;
         Product.init "cake" 12 [("flour", 1); ("sugar", 1)] 4 ];
     orders :=
       [ Order.make "20231231090000" "Ann" [("bread", 2)] 6 "Completed" 1704013200;
         Order.make "20231231100000" "Bob" [("cake", 1)] 12 "Pending" 1704016800;
         Order.make "20231231110000" "Cid" [("bread", 1); ("cake", 1)] 15 "Updated"
           1704020400 ];
     staff := [ Staff.init "Dee" "1" ["morning"] ] |}.

Definition shop : World := {| self := lists; disk := lists |}.

(** Two products share the name bread; the first is out of stock. *)
Definition twin_lists : BakeryManager :=
  set_products
    [ Product.init "bread" 3 [("flour", 2)] 0;
      Product.init "bread" 3 [("flour", 2)] 10 ] lists.

Definition twins : World := {| self := twin_lists; disk := twin_lists |}.

(** Two products share the name bread; both are in stock. *)
Definition stocked_twin_lists : BakeryManager :=
  set_products
    [ Product.init "bread" 3 [("flour", 2)] 10;
      Product.init "bread" 3 [("flour", 2)] 10 ] lists.

Definition stocked_twins : World := {| self := stocked_twin_lists; disk := stocked_twin_lists |}.
End Sample.

(** ** Further notions used in the statements *)

(** The items of all orders, in the order in which the loops of
    [get_popular_products] meet them. *)
Definition all_items (m : BakeryManager) : dict := flat_map Order.items (orders m).

(** No product has a negative quantity in stock. *)
Definition stock_nonneg (w : World) : Prop :=
  Forall (fun p => 0 <= Product.quantity p) (products (self w)).

(** The files hold what the manager holds. *)
Definition files_in_sync (w : World) : Prop := disk w = self w.

(** * Properties *)

(** ** The helpers *)

Lemma list_comp_acc {A B : Type} (cond : A -> bool) (e : A -> B) (l : list A) (acc : list B) :
  fold_left (fun acc x => if cond x then acc ++ [e x] else acc) l acc
  = acc ++ map e (filter cond l).
Proof.
  revert acc; induction l as [|x l IH]; intros acc; simpl.
  - now rewrite app_nil_r.
  - rewrite IH. destruct (cond x); simpl; [now rewrite <- app_assoc | reflexivity].
Qed.

Lemma list_comp_spec {A B : Type} (cond : A -> bool) (e : A -> B) (l : list A) :
  list_comp cond e l = map e (filter cond l).
Proof. unfold list_comp. now rewrite list_comp_acc. Qed.

Lemma fold_add_Zsum (l : list Z) (a : Z) : fold_left Z.add l a = a + Zsum l.
Proof.
  revert a; induction l as [|x l IH]; intros a; simpl; [lia|].
  rewrite IH. lia.
Qed.

Lemma py_sum_Zsum (l : list Z) : py_sum l = Zsum l.
Proof. unfold py_sum. now rewrite fold_add_Zsum. Qed.

Lemma update_first_length {A : Type} (f : A -> bool) (g : A -> A) (l : list A) :
  List.length (update_first f g l) = List.length l.
Proof.
  induction l as [|x l IH]; simpl; [reflexivity|].
  destruct (f x); simpl; congruence.
Qed.

Lemma update_first_map {A B : Type} (h : A -> B) (f : A -> bool) (g : A -> A) (l : list A) :
  (forall x, h (g x) = h x) ->
  map h (update_first f g l) = map h l.
Proof.
  intros Hg; induction l as [|x l IH]; simpl; [reflexivity|].
  destruct (f x); simpl; congruence.
Qed.

Lemma nth_error_update_first {A : Type} (f : A -> bool) (g : A -> A) (l : list A) :
  forall i x, nth_error l i = Some x ->
    nth_error (update_first f g l) i
    = Some (if f x && negb (existsb f (firstn i l)) then g x else x).
Proof.
  induction l as [|y l IH]; intros [|i] x Hx; simpl in *; try discriminate.
  - injection Hx as ->. destruct (f x); reflexivity.
  - destruct (f y) eqn:Hy; simpl.
    + rewrite Hx. now rewrite andb_false_r.
    + now apply IH.
Qed.

Lemma Forall_update_first {A : Type} (P : A -> Prop) (f : A -> bool) (g : A -> A) (l : list A) :
  (forall x, P x -> P (g x)) -> Forall P l -> Forall P (update_first f g l).
Proof.
  intros Hg; induction 1 as [|x l Hx Hl IH]; simpl; [constructor|].
  destruct (f x); constructor; auto.
Qed.

Lemma Forall_remove_first {A : Type} (P : A -> Prop) (f : A -> bool) (l : list A) :
  Forall P l -> Forall P (remove_first f l).
Proof.
  induction 1 as [|x l Hx Hl IH]; simpl; [constructor|].
  destruct (f x); [assumption | constructor; assumption].
Qed.

Lemma Forall_delete_at {A : Type} (P : A -> Prop) (l : list A) :
  Forall P l -> forall i, Forall P (delete_at i l).
Proof.
  induction 1 as [|x l Hx Hl IH]; intros [|i]; simpl; try constructor; auto.
Qed.

(** Which products carry a given name depends only on the names. *)
Lemma next_product_none_names (n : string) (ps qs : list Product.t) :
  map Product.name ps = map Product.name qs ->
  next_product n ps = None -> next_product n qs = None.
Proof.
  unfold next_product. revert qs; induction ps as [|p ps IH]; intros [|q qs] E; simpl in *;
    try discriminate; auto.
  injection E as E1 E2. rewrite <- E1.
  destruct (Product.name p == n); [discriminate | now apply IH].
Qed.

Lemma existsb_names (n : string) (ps qs : list Product.t) :
  map Product.name ps = map Product.name qs ->
  existsb (fun p => Product.name p == n) ps = existsb (fun p => Product.name p == n) qs.
Proof.
  revert qs; induction ps as [|p ps IH]; intros [|q qs] E; simpl in *; try discriminate; auto.
  injection E as E1 E2. rewrite E1. f_equal. now apply IH.
Qed.

Lemma next_product_existsb (n : string) (ps : list Product.t) :
  next_product n ps = None <-> existsb (fun p => Product.name p == n) ps = false.
Proof.
  unfold next_product. induction ps as [|p ps IH]; simpl; [tauto|].
  destruct (Product.name p == n); simpl; [split; discriminate | exact IH].
Qed.


(** ** create_order *)

Lemma deduct_all_names (items : dict) (ps : list Product.t) :
  map Product.name (deduct_all items ps) = map Product.name ps.
Proof.
  unfold deduct_all. revert ps; induction items as [|[n q] items IH]; intros ps; simpl;
    [reflexivity|].
  rewrite IH. now apply update_first_map.
Qed.


Lemma items_in_stock_spec (ps : list Product.t) (items : dict) :
  items_in_stock ps items = true <->
  forall n q, In (n, q) items ->
    exists p, next_product n ps = Some p /\ q <= Product.quantity p.
Proof.
  induction items as [|[k v] items IH]; simpl.
  - split; [intros _ n q [] | reflexivity].
  - destruct (next_product k ps) as [p|] eqn:Hk.
    + destruct (Product.quantity p <? v) eqn:Hq.
      * split; [discriminate|]. intros Hall.
        destruct (Hall k v (or_introl eq_refl)) as (p' & Hp' & Hle).
        rewrite Hk in Hp'. injection Hp' as <-. apply Z.ltb_lt in Hq. lia.
      * rewrite IH. apply Z.ltb_ge in Hq. split.
        -- intros Hall n q [E|Hin]; [injection E as <- <-; eauto | auto].
        -- intros Hall n q Hin. apply Hall. now right.
    + split; [discriminate|]. intros Hall.
      destruct (Hall k v (or_introl eq_refl)) as (p' & Hp' & _). congruence.
Qed.

(** The same, with the test of the loop as the code writes it:
    [product.quantity < qty] is false. *)
Lemma items_in_stock_test (ps : list Product.t) (items : dict) :
  items_in_stock ps items = true <->
  forall n q, In (n, q) items ->
    exists p, next_product n ps = Some p /\ (Product.quantity p <? q) = false.
Proof.
  induction items as [|[k v] items IH]; cbn [items_in_stock].
  - split; [intros _ n q [] | reflexivity].
  - destruct (next_product k ps) as [p|] eqn:Hk.
    + destruct (Product.quantity p <? v) eqn:Hq.
      * split; [discriminate|]. intros Hall.
        destruct (Hall k v (or_introl eq_refl)) as (p' & Hp' & Hlt).
        rewrite Hk in Hp'. injection Hp' as <-. congruence.
      * rewrite IH. split.
        -- intros Hall n q [E|Hin]; [injection E as <- <-; eauto | auto].
        -- intros Hall n q Hin. apply Hall. now right.
    + split; [discriminate|]. intros Hall.
      destruct (Hall k v (or_introl eq_refl)) as (p' & Hp' & _). congruence.
Qed.

(** Once every name of [items] is found among the products, the second
    loop runs to its end without raising. *)
Lemma for_each_deduct (items : dict) :
  forall w,
    (forall n q, In (n, q) items -> next_product n (products (self w)) <> None) ->
    for_each items deduct w
    = (Returned tt,
       {| self := set_products (deduct_all items (products (self w))) (self w);
          disk := disk w |}).
Proof.
  induction items as [|[k v] items IH]; intros w Hall.
  - simpl. unfold ret. destruct w as [[i p o s] d]; reflexivity.
  - simpl for_each. unfold bind at 1. unfold deduct, bind, gets.
    destruct (next_product k (products (self w))) eqn:Hk.
    2:{ exfalso. eapply Hall; [left; reflexivity | exact Hk]. }
    unfold on_product, modify. rewrite IH.
    + reflexivity.
    + simpl. intros n q Hin Hnone. apply (Hall n q (or_intror Hin)).
      eapply next_product_none_names; [|exact Hnone].
      now apply update_first_map.
Qed.

Lemma create_order_eq (c : Order.clock) (customer_name : string) (items : dict) (w : World) :
  create_order c customer_name items w
  = if items_in_stock (products (self w)) items
    then (Returned true, order_created c customer_name items w)
    else (Returned false, w).
Proof.
  unfold create_order. unfold bind at 1. unfold gets at 1.
  destruct (items_in_stock (products (self w)) items) eqn:Hs; simpl; [|reflexivity].
  unfold bind at 1. rewrite for_each_deduct.
  - reflexivity.
  - intros n q Hin. apply items_in_stock_spec with (n := n) (q := q) in Hs; [|assumption].
    destruct Hs as (p & -> & _). discriminate.
Qed.

Lemma ordered_in (items : dict) (n : string) (q : Z) :
  dict_wf items -> In (n, q) items -> ordered n items = q.
Proof.
  unfold dict_wf, ordered. induction items as [|[k v] items IH]; simpl; intros Hnd Hin; [tauto|].
  inversion Hnd as [|? ? Hk Hnd']; subst.
  destruct Hin as [E|Hin].
  - injection E as -> ->. rewrite String.eqb_refl. simpl.
    assert (Hz : filter (fun kv => fst kv == n) items = []).
    { clear IH Hnd Hnd'. induction items as [|[k' v'] items IH]; simpl in *; [reflexivity|].
      destruct (k' == n) eqn:E; [apply String.eqb_eq in E; tauto | apply IH; tauto]. }
    rewrite Hz. simpl. lia.
  - destruct (k == n) eqn:E.
    + apply String.eqb_eq in E. subst k. exfalso. apply Hk.
      change n with (fst (n, q)). now apply in_map.
    + now apply IH.
Qed.

Lemma ordered_not_in (items : dict) (n : string) :
  ~ In n (map fst items) -> ordered n items = 0.
Proof.
  unfold ordered. induction items as [|[k v] items IH]; simpl; intros Hn; [reflexivity|].
  destruct (k == n) eqn:E; [apply String.eqb_eq in E; tauto | apply IH; tauto].
Qed.

(** Each product after the loop: the first product of a name loses what
    [items] asks of that name, every other product is as before. *)
Lemma deduct_all_nth (items : dict) :
  forall ps i p, nth_error ps i = Some p ->
    nth_error (deduct_all items ps) i
    = Some (if existsb (fun p' => Product.name p' == Product.name p) (firstn i ps)
            then p
            else Product.with_quantity (Product.quantity p - ordered (Product.name p) items) p).
Proof.
  unfold deduct_all, ordered.
  induction items as [|[k v] items IH]; intros ps i p Hp; simpl.
  - rewrite Hp. f_equal. destruct (existsb _ _); [reflexivity|].
    destruct p; unfold Product.with_quantity; simpl. f_equal. lia.
  - set (g := fun p0 => Product.with_quantity (Product.quantity p0 - v) p0).
    set (f := fun p0 => Product.name p0 == k).
    pose proof (nth_error_update_first f g ps i p Hp) as H1.
    rewrite (IH _ _ _ H1). clear IH. f_equal.
    assert (Hnames : map Product.name (firstn i (update_first f g ps))
                     = map Product.name (firstn i ps)).
    { rewrite <- !firstn_map. f_equal. now apply update_first_map. }
    assert (Hname : Product.name (if f p && negb (existsb f (firstn i ps)) then g p else p)
                    = Product.name p).
    { destruct (f p && negb (existsb f (firstn i ps))); reflexivity. }
    rewrite Hname. rewrite (existsb_names _ _ _ Hnames). clear Hname Hnames H1.
    cbn [filter fst]. rewrite (String.eqb_sym k). subst f g. cbv beta.
    destruct (Product.name p == k) eqn:E.
    + apply String.eqb_eq in E. subst k.
      destruct (existsb (fun p' => Product.name p' == Product.name p) (firstn i ps));
        [reflexivity|].
      destruct p; unfold Product.with_quantity; simpl. f_equal. lia.
    + simpl. reflexivity.
Qed.



(** C2, as the code has it: [create_order] returns True or False and never
    raises; it returns True exactly when, for every item, the first product
    of the list with that name exists and the test of the code on it,
    [product.quantity < qty], is false (for two ordinary numbers: the
    quantity is at least the one asked); on True the first product of each
    ordered name has its quantity replaced by [quantity - qty], and every
    other product (one whose name is not ordered, or one that comes after a
    product of the same name) is as it was. *)
Theorem create_order_checks_and_deducts_first_match
    (c : Order.clock) (customer_name : string) (items : dict) (w : World) :
  dict_wf items ->
  let r := create_order c customer_name items w in
  (fst r = Returned true \/ fst r = Returned false) /\
  (fst r = Returned true <->
   forall name qty, In (name, qty) items ->
     exists p, next_product name (products (self w)) = Some p /\
               (Product.quantity p <? qty) = false) /\
  (fst r = Returned true ->
   List.length (products (self (snd r))) = List.length (products (self w)) /\
   forall i p, nth_error (products (self w)) i = Some p ->
     (forall qty,
        next_product (Product.name p) (firstn i (products (self w))) = None ->
        In (Product.name p, qty) items ->
        nth_error (products (self (snd r))) i
        = Some (Product.with_quantity (Product.quantity p - qty) p)) /\
     (next_product (Product.name p) (firstn i (products (self w))) <> None \/
      ~ In (Product.name p) (map fst items) ->
      nth_error (products (self (snd r))) i = Some p)).
Proof.
  intros Hwf r. subst r. rewrite create_order_eq.
  pose proof (items_in_stock_test (products (self w)) items) as Hspec.
  destruct (items_in_stock (products (self w)) items); simpl.
  - split; [now left|]. split; [split; [intros _; now apply Hspec | reflexivity]|].
    intros _. split.
    + rewrite <- (length_map Product.name), deduct_all_names. apply length_map.
    + intros i p Hp. rewrite (deduct_all_nth items _ _ _ Hp). split.
      * intros qty Hfirst Hin. apply next_product_existsb in Hfirst. rewrite Hfirst.
        now rewrite (ordered_in items _ qty Hwf Hin).
      * intros [Hlater|Hnot].
        -- destruct (existsb _ _) eqn:Hb; [reflexivity|].
           apply next_product_existsb in Hb. contradiction.
        -- rewrite (ordered_not_in items _ Hnot).
           destruct (existsb _ _); [reflexivity|].
           destruct p; unfold Product.with_quantity; simpl. do 2 f_equal. lia.
  - split; [now right|]. split; [|discriminate].
    split; [discriminate|]. intros Hall. apply Hspec in Hall. discriminate.
Qed.

Lemma create_order_checks_and_deducts_first_match_witness :
  let r := create_order Sample.clock "Eve" [("bread", 2); ("cake", 1)] Sample.shop in
  fst r = Returned true /\
  nth_error (products (self (snd r))) 0
  = Some (Product.init "bread" 3 [("flour", 2); ("yeast", 1)] 8).
Proof.
  assert (Hwf : dict_wf [("bread", 2); ("cake", 1)]).
  { unfold dict_wf. simpl. repeat constructor; simpl; intuition discriminate. }
  destruct (create_order_checks_and_deducts_first_match
              Sample.clock "Eve" [("bread", 2); ("cake", 1)] Sample.shop Hwf)
    as (_ & _ & Hded).
  split; [reflexivity|].
  destruct (Hded eq_refl) as (_ & Hnth).
  destruct (Hnth 0%nat _ eq_refl) as (Hfirst & _).
  apply (Hfirst 2); [reflexivity | simpl; now left].
Defined.

(** C2 as first worded fails when two products share a name.  With an
    out-of-stock bread listed before a bread with ten in stock, an order of
    five is refused although some product named bread has five; with both in
    stock the order is accepted and the second bread, though named in the
    order, keeps its quantity. *)
Lemma create_order_some_product_counterexample :
  ~ (fst (create_order Sample.clock "Eve" [("bread", 5)] Sample.twins) = Returned true <->
     forall name qty, In (name, qty) [("bread", 5)] ->
       exists p, In p (products (self Sample.twins)) /\
                 Product.name p = name /\ qty <= Product.quantity p) /\
  (fst (create_order Sample.clock "Eve" [("bread", 5)] Sample.stocked_twins) = Returned true /\
   nth_error (products (self (snd (create_order Sample.clock "Eve" [("bread", 5)]
                                       Sample.stocked_twins)))) 1
   = Some (Product.init "bread" 3 [("flour", 2)] 10)).
Proof.
  split; [|split; reflexivity].
  intros [_ Hback].
  assert (Hfalse : fst (create_order Sample.clock "Eve" [("bread", 5)] Sample.twins)
                   = Returned false) by reflexivity.
  rewrite Hfalse in Hback.
  assert (Returned false = Returned true) as Habs; [|discriminate Habs].
  apply Hback. intros name qty [E|[]]. injection E as <- <-.
  exists (Product.init "bread" 3 [("flour", 2)] 10). simpl.
  split; [right; left; reflexivity | split; [reflexivity | lia]].
Qed.

(** C3: [create_order] leaves the ingredients collection as it was, whatever
    it returns; the recipes of the ordered products are not read. *)
Theorem create_order_keeps_ingredients
    (c : Order.clock) (customer_name : string) (items : dict) (w : World) :
  ingredients (self (snd (create_order c customer_name items w))) = ingredients (self w).
Proof.
  rewrite create_order_eq.
  destruct (items_in_stock (products (self w)) items); reflexivity.
Qed.

(** C9: a call of [create_order] that returns False leaves the whole state
    (products, orders, ingredients, staff, and the files) as it was. *)
Theorem create_order_failure_changes_nothing
    (c : Order.clock) (customer_name : string) (items : dict) (w : World) :
  fst (create_order c customer_name items w) = Returned false ->
  snd (create_order c customer_name items w) = w /\
  exists name qty,
    In (name, qty) items /\
    match next_product name (products (self w)) with
    | None => True
    | Some p => Product.quantity p < qty
    end.
Proof.
  rewrite create_order_eq.
  destruct (items_in_stock (products (self w)) items) eqn:Hs; [discriminate|].
  intros _. split; [reflexivity|].
  clear c customer_name. induction items as [|[k v] items IH]; simpl in Hs; [discriminate|].
  destruct (next_product k (products (self w))) as [p|] eqn:Hk.
  - destruct (Product.quantity p <? v) eqn:Hq.
    + exists k, v. split; [now left|]. rewrite Hk. now apply Z.ltb_lt.
    + destruct (IH Hs) as (n & q & Hin & Hn). exists n, q. split; [now right | assumption].
  - exists k, v. split; [now left|]. now rewrite Hk.
Qed.

Lemma create_order_failure_changes_nothing_witness :
  snd (create_order Sample.clock "Eve" [("bread", 2); ("cake", 5)] Sample.shop) = Sample.shop.
Proof.
  apply (create_order_failure_changes_nothing
           Sample.clock "Eve" [("bread", 2); ("cake", 5)] Sample.shop).
  reflexivity.
Defined.

(** ** Lookups and reports *)

(** C10: [get_product_price] gives the price of the first product of the
    list with that name, and 0 (not an error) when no product has it. *)
Theorem get_product_price_first_match_or_zero (m : BakeryManager) (product_name : string) :
  (forall before product after,
     products m = before ++ product :: after ->
     Product.name product = product_name ->
     (forall p, In p before -> Product.name p <> product_name) ->
     get_product_price m product_name = Product.price product) /\
  ((forall p, In p (products m) -> Product.name p <> product_name) ->
   get_product_price m product_name = 0).
Proof.
  unfold get_product_price, next_product. split.
  - intros before product after -> Hname Hbefore.
    induction before as [|b before IH]; simpl.
    + subst product_name. now rewrite String.eqb_refl.
    + destruct (Product.name b == product_name) eqn:E.
      * apply String.eqb_eq in E. exfalso. apply (Hbefore b); [now left | assumption].
      * apply IH. intros p Hp. apply Hbefore. now right.
  - intros Hnone. induction (products m) as [|p ps IH]; simpl; [reflexivity|].
    destruct (Product.name p == product_name) eqn:E.
    + apply String.eqb_eq in E. exfalso. apply (Hnone p); [now left | assumption].
    + apply IH. intros q Hq. apply Hnone. now right.
Qed.

Lemma get_product_price_first_match_or_zero_witness :
  get_product_price Sample.twin_lists "bread" = 3 /\
  get_product_price Sample.lists "scone" = 0.
Proof.
  split.
  - apply (proj1 (get_product_price_first_match_or_zero Sample.twin_lists "bread")
             [] (Product.init "bread" 3 [("flour", 2)] 0)
             [Product.init "bread" 3 [("flour", 2)] 10]).
    + reflexivity.
    + reflexivity.
    + intros p [].
  - apply (proj2 (get_product_price_first_match_or_zero Sample.lists "scone")).
    simpl. intros p [<-|[<-|[]]]; discriminate.
Defined.

(** C4: [check_low_stock] gives the ingredients whose quantity is strictly
    below their reorder level, in the order of the list; an ingredient whose
    quantity equals its reorder level is not among them. *)
Theorem check_low_stock_strictly_below (m : BakeryManager) :
  check_low_stock m
  = filter (fun ing => Ingredient.quantity ing <? Ingredient.reorder_level ing)
      (ingredients m) /\
  (forall ing,
     In ing (check_low_stock m) <->
     In ing (ingredients m) /\ Ingredient.quantity ing < Ingredient.reorder_level ing) /\
  (forall ing,
     Ingredient.quantity ing = Ingredient.reorder_level ing -> ~ In ing (check_low_stock m)).
Proof.
  assert (E : check_low_stock m
              = filter (fun ing => Ingredient.quantity ing <? Ingredient.reorder_level ing)
                  (ingredients m)).
  { unfold check_low_stock. rewrite list_comp_spec. apply map_id. }
  split; [exact E|]. rewrite E. split.
  - intros ing. rewrite filter_In, Z.ltb_lt. tauto.
  - intros ing Heq Hin. apply filter_In in Hin. destruct Hin as [_ Hlt].
    apply Z.ltb_lt in Hlt. lia.
Qed.


(** ** Staff roles *)

Lemma find_role_none (roll : string) (st : list Staff.t) :
  find (fun s => Staff.role s == roll) st = None -> ~ In roll (map Staff.role st).
Proof.
  intros Hnone Hin. apply in_map_iff in Hin. destruct Hin as (s & Hs & Hin).
  pose proof (find_none _ _ Hnone s Hin) as Hf. simpl in Hf.
  rewrite Hs, String.eqb_refl in Hf. discriminate.
Qed.

Lemma NoDup_snoc {A : Type} (l : list A) (x : A) : NoDup l -> ~ In x l -> NoDup (l ++ [x]).
Proof.
  intros Hl Hx. induction Hl as [|y l Hy Hl IH]; simpl.
  - constructor; [intros [] | constructor].
  - constructor.
    + rewrite in_app_iff. simpl. intros [Hin|[E|[]]]; [contradiction|].
      subst y. apply Hx. now left.
    + apply IH. intros Hin. apply Hx. now right.
Qed.

Section Forms.
Context {B : Builtins}.

(** C6, as the code has it: the check of an existing role is made by the
    add-staff form, not by [BakeryManager.add_staff].  A submission of the
    form with a role that some staff member already has shows an error and
    leaves the whole state, the staff list included, as it was; so from
    pairwise distinct roles every submission of the form keeps the roles
    pairwise distinct.  [add_staff] itself appends whatever it is given. *)
Theorem add_staff_form_enforces_role_uniqueness
    (name roll shifts_input : string) (w : World) :
  ((exists s, In s (staff (self w)) /\ Staff.role s = roll) ->
   exists msg,
     add_staff_submit name roll shifts_input w = (Returned (Some (showerror msg)), w)) /\
  (roles_distinct w -> roles_distinct (exec (add_staff_submit name roll shifts_input) w)) /\
  (forall shifts,
     staff (self (exec (add_staff name roll shifts) w))
     = staff (self w) ++ [Staff.init name roll shifts]).
Proof.
  split; [|split].
  - intros (s & Hin & Hrole). unfold add_staff_submit, error, ret.
    destruct ((name == "") && (roll == "") && (shifts_input == "")); [eauto|].
    destruct (name == ""); [eauto|].
    destruct (roll == ""); [eauto|].
    destruct (py_int roll); [|eauto].
    destruct (shifts_input == ""); [eauto|].
    unfold bind, gets.
    destruct (find (fun s0 => Staff.role s0 == roll) (staff (self w))) eqn:Hf; [eauto|].
    exfalso. apply (find_role_none _ _ Hf). rewrite <- Hrole. now apply in_map.
  - intros Hnd. unfold exec, add_staff_submit, error, ret.
    destruct ((name == "") && (roll == "") && (shifts_input == "")); [exact Hnd|].
    destruct (name == ""); [exact Hnd|].
    destruct (roll == ""); [exact Hnd|].
    destruct (py_int roll); [|exact Hnd].
    destruct (shifts_input == ""); [exact Hnd|].
    unfold bind at 1. unfold gets.
    destruct (find (fun s0 => Staff.role s0 == roll) (staff (self w))) eqn:Hf; [exact Hnd|].
    destruct (list_comp _ _ _) as [|shift shifts]; [exact Hnd|].
    unfold roles_distinct. simpl. rewrite map_app. simpl.
    apply NoDup_snoc; [exact Hnd | now apply find_role_none].
  - intros shifts. reflexivity.
Qed.

Lemma product_status_submit_orders (product_name quantity : string) (w : World) :
  orders (self (exec (product_status_submit product_name quantity) w)) = orders (self w).
Proof.
  unfold exec, product_status_submit, error, ret.
  destruct ((product_name == "") || (quantity == "")); [reflexivity|].
  destruct (py_float quantity); [|reflexivity].
  unfold bind at 1. unfold gets.
  destruct (next_product product_name (products (self w))); reflexivity.
Qed.

Lemma delete_product_orders (product_name : string) (confirm : bool) (w : World) :
  orders (self (exec (delete_product product_name confirm) w)) = orders (self w).
Proof. destruct confirm; reflexivity. Qed.

(** C8: adding a product, adding stock to a product and deleting a product
    leave the orders list, and so the total of every existing order, exactly
    as it was; no total is computed again from the product table. *)
Theorem product_changes_keep_order_totals (w : World) :
  (forall name price recipe quantity,
     orders (self (exec (add_product name price recipe quantity) w)) = orders (self w)) /\
  (forall product_name quantity,
     orders (self (exec (product_status_submit product_name quantity) w)) = orders (self w)) /\
  (forall product_name confirm,
     orders (self (exec (delete_product product_name confirm) w)) = orders (self w)) /\
  (forall o i order,
     match o with
     | AddProduct _ _ _ _ | ProductStatusSubmit _ _ | DeleteProduct _ _ => True
     | _ => False
     end ->
     nth_error (orders (self w)) i = Some order ->
     exists order',
       nth_error (orders (self (step o w))) i = Some order' /\
       Order.total order' = Order.total order).
Proof.
  split; [reflexivity|].
  split; [intros; apply product_status_submit_orders|].
  split; [intros; apply delete_product_orders|].
  intros o i order Ho Hnth. exists order. split; [|reflexivity].
  destruct o; try contradiction; unfold step.
  - exact Hnth.
  - now rewrite product_status_submit_orders.
  - now rewrite delete_product_orders.
Qed.
End Forms.

Lemma add_staff_form_enforces_role_uniqueness_witness :
  roles_distinct
    (exec (add_staff_submit (B := Plain.builtins) "Fay" "2" "night, late") Sample.shop) /\
  exists msg,
    add_staff_submit (B := Plain.builtins) "Fay" "1" "night" Sample.shop
    = (Returned (Some (showerror msg)), Sample.shop).
Proof.
  split.
  - apply (add_staff_form_enforces_role_uniqueness (B := Plain.builtins)).
    unfold roles_distinct. simpl. constructor; [intros [] | constructor].
  - apply (add_staff_form_enforces_role_uniqueness (B := Plain.builtins)).
    exists (Staff.init "Dee" "1" ["morning"]). split; [now left | reflexivity].
Defined.

(** C6 as first worded fails for [BakeryManager.add_staff]: called with a
    role that a staff member already has, it appends the new member, and the
    roles are no longer pairwise distinct. *)
Lemma add_staff_duplicate_role_counterexample :
  roles_distinct Sample.shop /\
  (exists s, In s (staff (self Sample.shop)) /\ Staff.role s = "1") /\
  staff (self (exec (add_staff "Fay" "1" ["night"]) Sample.shop))
  = [Staff.init "Dee" "1" ["morning"]; Staff.init "Fay" "1" ["night"]] /\
  staff (self (exec (add_staff "Fay" "1" ["night"]) Sample.shop)) <> staff (self Sample.shop) /\
  ~ roles_distinct (exec (add_staff "Fay" "1" ["night"]) Sample.shop).
Proof.
  split; [unfold roles_distinct; simpl; constructor; [intros [] | constructor]|].
  split; [exists (Staff.init "Dee" "1" ["morning"]); split; [now left | reflexivity]|].
  split; [reflexivity|]. split; [discriminate|].
  unfold roles_distinct. simpl. intros Hnd. inversion Hnd as [|? ? Hnotin _]; subst.
  apply Hnotin. now left.
Qed.

Lemma product_changes_keep_order_totals_witness :
  exists order',
    nth_error
      (orders (self (step (B := Plain.builtins) (ProductStatusSubmit "bread" "7") Sample.shop)))
      1
    = Some order' /\
    Order.total order' = 12.
Proof.
  apply (proj2 (proj2 (proj2
           (product_changes_keep_order_totals (B := Plain.builtins) Sample.shop)))
           (ProductStatusSubmit "bread" "7") 1%nat
           (Order.make "20231231100000" "Bob" [("cake", 1)] 12 "Pending" 1704016800)).
  - exact I.
  - reflexivity.
Defined.

(** ** Order status *)

Lemma status_ok_with_items (d : dict) (o : Order.t) :
  status_ok o -> status_ok (Order.with_items d o).
Proof. exact (fun H => H). Qed.

Lemma status_ok_with_total (x : Z) (o : Order.t) :
  status_ok o -> status_ok (Order.with_total x o).
Proof. exact (fun H => H). Qed.

Lemma status_ok_updated (o : Order.t) : status_ok (Order.with_status "Updated" o).
Proof. unfold status_ok. simpl. tauto. Qed.

Lemma status_ok_completed (o : Order.t) : status_ok (Order.with_status "Completed" o).
Proof. unfold status_ok. simpl. tauto. Qed.

Lemma status_ok_init (c : Order.clock) (customer_name : string) (items : dict) (x : Z) :
  status_ok (Order.with_total x (Order.init c customer_name items)).
Proof. unfold status_ok. simpl. tauto. Qed.

Lemma statuses_ok_on_order (order_id : string) (g : Order.t -> Order.t) (w : World) :
  (forall o, status_ok o -> status_ok (g o)) ->
  statuses_ok w -> statuses_ok (exec (on_order order_id g) w).
Proof. intros Hg Hw. unfold statuses_ok. simpl. now apply Forall_update_first. Qed.

(** A call that leaves the orders list alone keeps the invariant. *)
Lemma statuses_ok_same_orders (w w' : World) :
  orders (self w') = orders (self w) -> statuses_ok w -> statuses_ok w'.
Proof. unfold statuses_ok. now intros ->. Qed.

Section Status.
Context {B : Builtins}.

Lemma update_order_status_submit_statuses (order_id product_name quantity : string) (w : World) :
  statuses_ok w ->
  statuses_ok (exec (update_order_status_submit order_id product_name quantity) w).
Proof.
  intros Hw. unfold exec, update_order_status_submit, error, ret.
  destruct ((order_id == "") || (product_name == "") || (quantity == "")); [exact Hw|].
  destruct (py_float quantity) as [q|]; [|exact Hw].
  destruct (q <=? 0); [exact Hw|].
  unfold bind at 1. unfold gets at 1.
  destruct (next_order order_id (orders (self w))); [|exact Hw].
  unfold bind at 1. unfold gets at 1.
  destruct (next_product product_name (products (self w))) as [product|]; [|exact Hw].
  destruct (Product.quantity product <? q); [exact Hw|].
  unfold statuses_ok. simpl.
  apply Forall_update_first; [intros; apply status_ok_updated|].
  apply Forall_update_first; [intros o; apply status_ok_with_total|].
  apply Forall_update_first; [intros o; apply status_ok_with_items|].
  exact Hw.
Qed.

(** C7: an order is created with status "Pending", and every operation
    (order creation, marking orders complete, updating an order, and each of
    the other calls that change the manager) keeps the status of every order
    among "Pending", "Completed" and "Updated" once all of them are. *)
Theorem order_status_stays_in_range :
  (forall c customer_name items, Order.status (Order.init c customer_name items) = "Pending") /\
  (forall c customer_name items w w',
     create_order c customer_name items w = (Returned true, w') ->
     exists order,
       orders (self w') = orders (self w) ++ [order] /\ Order.status order = "Pending") /\
  (forall o w, statuses_ok w -> statuses_ok (step o w)).
Proof.
  split; [reflexivity|]. split.
  - intros c customer_name items w w'. rewrite create_order_eq.
    destruct (items_in_stock (products (self w)) items); [|discriminate].
    intros E. injection E as <-. eexists. split; reflexivity.
  - intros o w Hw. destruct o; unfold step.
    + apply (statuses_ok_same_orders w); [reflexivity | exact Hw].
    + apply (statuses_ok_same_orders w); [|exact Hw].
      unfold exec, restock_ingredient, bind, gets.
      destruct (restock_in name quantity (ingredients (self w))); reflexivity.
    + apply (statuses_ok_same_orders w); [reflexivity | exact Hw].
    + unfold exec. rewrite create_order_eq.
      destruct (items_in_stock (products (self w)) items); [|exact Hw].
      unfold statuses_ok. simpl. apply Forall_app. split; [exact Hw|].
      constructor; [apply status_ok_init | constructor].
    + apply (statuses_ok_same_orders w); [reflexivity | exact Hw].
    + now apply update_order_status_submit_statuses.
    + apply (statuses_ok_same_orders w); [|exact Hw].
      unfold exec, add_staff_submit, error, ret.
      destruct ((name == "") && (roll == "") && (shifts_input == "")); [reflexivity|].
      destruct (name == ""); [reflexivity|].
      destruct (roll == ""); [reflexivity|].
      destruct (py_int roll); [|reflexivity].
      destruct (shifts_input == ""); [reflexivity|].
      unfold bind at 1. unfold gets.
      destruct (find _ (staff (self w))); [reflexivity|].
      destruct (list_comp _ _ _); reflexivity.
    + apply (statuses_ok_same_orders w); [|exact Hw].
      apply product_status_submit_orders.
    + unfold statuses_ok. simpl. apply Forall_map.
      eapply Forall_impl; [|exact Hw]. intros order Hok. simpl.
      destruct (existsb _ selected_orders); [apply status_ok_completed | exact Hok].
    + apply (statuses_ok_same_orders w); [|exact Hw].
      apply delete_product_orders.
    + unfold exec, delete_order, bind, gets.
      destruct (next_order order_id (orders (self w))); [|exact Hw].
      destruct confirm; [|exact Hw].
      unfold statuses_ok. simpl. now apply Forall_remove_first.
    + unfold exec, delete_sold_item. destruct confirm; [|exact Hw].
      unfold bind at 1. unfold gets.
      destruct (next_order order_id (orders (self w))) as [order|]; [|exact Hw].
      destruct (dict_mem product_name (Order.items order)); [|exact Hw].
      unfold statuses_ok. simpl.
      apply Forall_update_first; [intros o; apply status_ok_with_items | exact Hw].
    + apply (statuses_ok_same_orders w); [|exact Hw].
      unfold exec, delete_staff, bind, gets, error, ret.
      destruct ((0 <=? index) && (index <? Z.of_nat (List.length (staff (self w)))));
        [destruct confirm|]; reflexivity.
    + apply (statuses_ok_same_orders w); [|exact Hw].
      unfold exec, delete_ingredient, bind, gets, error, ret.
      destruct (py_index (List.length (ingredients (self w))) index);
        [destruct confirm|]; reflexivity.
Qed.
End Status.

Lemma order_status_stays_in_range_witness :
  statuses_ok
    (step (B := Plain.builtins) (UpdateOrderStatusSubmit "20231231100000" "bread" "2")
       Sample.shop) /\
  map Order.status
    (orders (self (step (B := Plain.builtins)
                     (UpdateOrderStatusSubmit "20231231100000" "bread" "2") Sample.shop)))
  = ["Completed"; "Updated"; "Updated"].
Proof.
  split; [|reflexivity].
  apply (proj2 (proj2 (order_status_stays_in_range (B := Plain.builtins)))).
  unfold statuses_ok, status_ok. simpl. repeat constructor; simpl; tauto.
Defined.

(** * Further properties of the code *)

(** ** First match in a list *)

Lemma find_split {A : Type} (f : A -> bool) (l : list A) (x : A) :
  find f l = Some x ->
  exists before after,
    l = before ++ x :: after /\ f x = true /\ forall y, In y before -> f y = false.
Proof.
  induction l as [|a l IH]; simpl; [discriminate|].
  destruct (f a) eqn:Ha.
  - intros E. injection E as ->. exists [], l. repeat split; [assumption | intros y []].
  - intros E. destruct (IH E) as (before & after & -> & Hx & Hb).
    exists (a :: before), after. repeat split; [assumption|].
    intros y [<-|Hy]; auto.
Qed.

Lemma find_first {A : Type} (f : A -> bool) (before after : list A) (x : A) :
  f x = true -> (forall y, In y before -> f y = false) ->
  find f (before ++ x :: after) = Some x.
Proof.
  intros Hx. induction before as [|a before IH]; simpl; intros Hb.
  - now rewrite Hx.
  - rewrite (Hb a (or_introl eq_refl)). apply IH. intros y Hy. apply Hb. now right.
Qed.

Lemma find_absent {A : Type} (f : A -> bool) (l : list A) :
  (forall y, In y l -> f y = false) -> find f l = None.
Proof.
  induction l as [|a l IH]; simpl; intros Hl; [reflexivity|].
  rewrite (Hl a (or_introl eq_refl)). apply IH. intros y Hy. apply Hl. now right.
Qed.

Lemma update_first_first {A : Type} (f : A -> bool) (g : A -> A) (before after : list A) (x : A) :
  f x = true -> (forall y, In y before -> f y = false) ->
  update_first f g (before ++ x :: after) = before ++ g x :: after.
Proof.
  intros Hx. induction before as [|a before IH]; simpl; intros Hb.
  - now rewrite Hx.
  - rewrite (Hb a (or_introl eq_refl)). f_equal. apply IH. intros y Hy. apply Hb. now right.
Qed.

Lemma remove_first_first {A : Type} (f : A -> bool) (before after : list A) (x : A) :
  f x = true -> (forall y, In y before -> f y = false) ->
  remove_first f (before ++ x :: after) = before ++ after.
Proof.
  intros Hx. induction before as [|a before IH]; simpl; intros Hb.
  - now rewrite Hx.
  - rewrite (Hb a (or_introl eq_refl)). f_equal. apply IH. intros y Hy. apply Hb. now right.
Qed.

Lemma delete_at_split {A : Type} (l : list A) :
  forall i, delete_at i l = firstn i l ++ skipn (S i) l.
Proof.
  induction l as [|a l IH]; intros [|i]; simpl; try reflexivity.
  f_equal. rewrite IH. reflexivity.
Qed.

Lemma eqb_false_of_neq (a b : string) : a <> b -> (a == b) = false.
Proof. intros Hab. now apply String.eqb_neq. Qed.

(** ** restock_ingredient *)

Lemma restock_in_first (name : string) (quantity : Z) (before after : list Ingredient.t)
      (ing : Ingredient.t) :
  Ingredient.name ing = name ->
  (forall i, In i before -> Ingredient.name i <> name) ->
  restock_in name quantity (before ++ ing :: after)
  = Some (before
          ++ Ingredient.init name (Ingredient.quantity ing + quantity)
               (Ingredient.unit ing) (Ingredient.reorder_level ing) :: after).
Proof.
  intros Hname. induction before as [|a before IH]; simpl; intros Hb.
  - rewrite Hname, String.eqb_refl. reflexivity.
  - rewrite (eqb_false_of_neq _ _ (Hb a (or_introl eq_refl))).
    rewrite IH; [reflexivity|]. intros i Hi. apply Hb. now right.
Qed.

Lemma restock_in_absent (name : string) (quantity : Z) (l : list Ingredient.t) :
  (forall i, In i l -> Ingredient.name i <> name) -> restock_in name quantity l = None.
Proof.
  induction l as [|a l IH]; simpl; intros Hl; [reflexivity|].
  rewrite (eqb_false_of_neq _ _ (Hl a (or_introl eq_refl))).
  rewrite IH; [reflexivity|]. intros i Hi. apply Hl. now right.
Qed.

(** X1: [restock_ingredient] adds the quantity to the first ingredient of
    the list with that name, leaves every other ingredient (a later one of
    the same name included) and the other lists as they were, saves and
    returns True; when no ingredient has the name it returns False and
    nothing changes, the files included. *)
Theorem restock_ingredient_first_match (name : string) (quantity : Z) (w : World) :
  (forall before ing after,
     ingredients (self w) = before ++ ing :: after ->
     Ingredient.name ing = name ->
     (forall i, In i before -> Ingredient.name i <> name) ->
     restock_ingredient name quantity w
     = (Returned true,
        let m :=
          set_ingredients
            (before
             ++ Ingredient.init name (Ingredient.quantity ing + quantity)
                  (Ingredient.unit ing) (Ingredient.reorder_level ing) :: after)
            (self w) in
        {| self := m; disk := m |})) /\
  ((forall i, In i (ingredients (self w)) -> Ingredient.name i <> name) ->
   restock_ingredient name quantity w = (Returned false, w)).
Proof.
  split.
  - intros before ing after Hl Hname Hb. unfold restock_ingredient, bind, gets.
    rewrite Hl, (restock_in_first _ _ _ _ _ Hname Hb). reflexivity.
  - intros Hl. unfold restock_ingredient, bind, gets.
    now rewrite (restock_in_absent _ _ _ Hl).
Qed.

Lemma restock_ingredient_first_match_witness :
  ingredients (self (snd (restock_ingredient "flour" 7 Sample.shop)))
  = [ Ingredient.init "flour" 12 "kg" 10;
      Ingredient.init "sugar" 10 "kg" 10;
      Ingredient.init "yeast" 20 "g" 5 ] /\
  restock_ingredient "salt" 7 Sample.shop = (Returned false, Sample.shop).
Proof.
  split.
  - rewrite (proj1 (restock_ingredient_first_match "flour" 7 Sample.shop)
               [] (Ingredient.init "flour" 5 "kg" 10)
               [Ingredient.init "sugar" 10 "kg" 10; Ingredient.init "yeast" 20 "g" 5]
               eq_refl eq_refl (fun i (H : In i []) => match H with end)).
    reflexivity.
  - apply (proj2 (restock_ingredient_first_match "salt" 7 Sample.shop)).
    simpl. intros i [<-|[<-|[<-|[]]]]; discriminate.
Defined.

(** ** Persistence *)

Section Persistence.
Context {B : Builtins}.

(** X2: every operation either leaves the world exactly as it was or ends
    with the four files holding exactly the four lists of the manager; no
    operation changes a list without saving. *)
Theorem step_unchanged_or_saved (o : op) (w : World) :
  step o w = w \/ disk (step o w) = self (step o w).
Proof.
  destruct o; unfold step, exec.
  - right. reflexivity.
  - unfold restock_ingredient, bind, gets.
    destruct (restock_in name quantity (ingredients (self w))); [right | left]; reflexivity.
  - right. reflexivity.
  - rewrite create_order_eq.
    destruct (items_in_stock (products (self w)) items); [right | left]; reflexivity.
  - right. reflexivity.
  - unfold update_order_status_submit, error, ret.
    destruct ((order_id == "") || (product_name == "") || (quantity == "")); [now left|].
    destruct (py_float quantity) as [q|]; [|now left].
    destruct (q <=? 0); [now left|].
    unfold bind, gets; cbn beta iota.
    destruct (next_order order_id (orders (self w))); [|now left].
    unfold bind, gets; cbn beta iota.
    destruct (next_product product_name (products (self w))) as [product|]; [|now left].
    destruct (Product.quantity product <? q); [now left|].
    right. reflexivity.
  - unfold add_staff_submit, error, ret.
    destruct ((name == "") && (roll == "") && (shifts_input == "")); [now left|].
    destruct (name == ""); [now left|].
    destruct (roll == ""); [now left|].
    destruct (py_int roll); [|now left].
    destruct (shifts_input == ""); [now left|].
    unfold bind, gets; cbn beta iota.
    destruct (find _ (staff (self w))); [now left|].
    destruct (list_comp _ _ _); [now left | right; reflexivity].
  - unfold product_status_submit, error, ret.
    destruct ((product_name == "") || (quantity == "")); [now left|].
    destruct (py_float quantity); [|now left].
    unfold bind, gets; cbn beta iota.
    destruct (next_product product_name (products (self w))); [right | left]; reflexivity.
  - right. reflexivity.
  - destruct confirm; [right | left]; reflexivity.
  - unfold delete_order, bind, gets.
    destruct (next_order order_id (orders (self w))); [|now left].
    destruct confirm; [right | left]; reflexivity.
  - unfold delete_sold_item. destruct confirm; [|now left].
    unfold bind, gets; cbn beta iota.
    destruct (next_order order_id (orders (self w))) as [order|]; [|now left].
    destruct (dict_mem product_name (Order.items order)); [right | left]; reflexivity.
  - unfold delete_staff, bind, gets, error, ret.
    destruct ((0 <=? index) && (index <? Z.of_nat (List.length (staff (self w)))));
      [destruct confirm; [right | left] | left]; reflexivity.
  - unfold delete_ingredient, bind, gets, error, ret.
    destruct (py_index (List.length (ingredients (self w))) index);
      [destruct confirm; [right | left] | left]; reflexivity.
Qed.
End Persistence.

(** ** Lookups after the product list changes *)

Lemma next_product_app (n : string) (ps qs : list Product.t) :
  next_product n (ps ++ qs)
  = match next_product n ps with
    | Some p => Some p
    | None => next_product n qs
    end.
Proof.
  unfold next_product. induction ps as [|p ps IH]; simpl; [reflexivity|].
  destruct (Product.name p == n); [reflexivity | exact IH].
Qed.

Lemma next_product_filter_other (n n' : string) (ps : list Product.t) :
  n' <> n ->
  next_product n' (filter (fun p => negb (Product.name p == n)) ps) = next_product n' ps.
Proof.
  intros Hn. unfold next_product. induction ps as [|p ps IH]; simpl; [reflexivity|].
  destruct (Product.name p == n) eqn:E; simpl.
  - apply String.eqb_eq in E. rewrite E, (eqb_false_of_neq n n'); [exact IH | congruence].
  - destruct (Product.name p == n'); [reflexivity | exact IH].
Qed.

Lemma next_product_filter_same (n : string) (ps : list Product.t) :
  next_product n (filter (fun p => negb (Product.name p == n)) ps) = None.
Proof.
  unfold next_product. induction ps as [|p ps IH]; simpl; [reflexivity|].
  destruct (Product.name p == n) eqn:E; simpl; [exact IH | now rewrite E].
Qed.

Lemma items_in_stock_missing (ps : list Product.t) (items : dict) (n : string) (q : Z) :
  In (n, q) items -> next_product n ps = None -> items_in_stock ps items = false.
Proof.
  intros Hin Hnone. destruct (items_in_stock ps items) eqn:Hs; [|reflexivity].
  destruct (proj1 (items_in_stock_spec ps items) Hs n q Hin) as (p & Hp & _). congruence.
Qed.

(** X3: a product added under a name that some product already has is
    invisible to every lookup by name (price, stock check, stock deduction
    all keep finding the older product); added under a new name, it is what
    a lookup of that name finds, and lookups of other names are as before. *)
Theorem add_product_lookup (name : string) (price : Z) (recipe : dict) (quantity : Z)
    (w : World) :
  let w' := exec (add_product name price recipe quantity) w in
  ((exists p, In p (products (self w)) /\ Product.name p = name) ->
   forall n,
     next_product n (products (self w')) = next_product n (products (self w)) /\
     get_product_price (self w') n = get_product_price (self w) n) /\
  ((forall p, In p (products (self w)) -> Product.name p <> name) ->
   next_product name (products (self w')) = Some (Product.init name price recipe quantity) /\
   get_product_price (self w') name = price /\
   forall n, n <> name ->
     next_product n (products (self w')) = next_product n (products (self w))).
Proof.
  intros w'. subst w'. unfold get_product_price. simpl.
  split.
  - intros (p & Hin & Hname) n. rewrite next_product_app.
    destruct (next_product n (products (self w))) eqn:Hn; [split; reflexivity|].
    unfold next_product at 1. simpl.
    destruct (name == n) eqn:E; [|split; reflexivity].
    apply String.eqb_eq in E. subst n. exfalso.
    pose proof (find_none _ _ Hn p Hin) as Hf. simpl in Hf.
    rewrite Hname, String.eqb_refl in Hf. discriminate.
  - intros Hnew.
    assert (Hnone : next_product name (products (self w)) = None).
    { apply find_absent. intros p Hp. apply eqb_false_of_neq. now apply Hnew. }
    rewrite next_product_app, Hnone. unfold next_product at 1 2. simpl.
    rewrite String.eqb_refl. split; [reflexivity|]. split; [reflexivity|].
    intros n Hn. rewrite next_product_app.
    destruct (next_product n (products (self w))); [reflexivity|].
    unfold next_product. simpl. rewrite (eqb_false_of_neq name n); [reflexivity | congruence].
Qed.

Lemma add_product_lookup_witness :
  get_product_price (self (exec (add_product "bread" 99 [("flour", 1)] 50) Sample.shop))
    "bread" = 3 /\
  get_product_price (self (exec (add_product "scone" 2 [("flour", 1)] 50) Sample.shop))
    "scone" = 2.
Proof.
  split.
  - destruct (proj1 (add_product_lookup "bread" 99 [("flour", 1)] 50 Sample.shop)
                (ex_intro _ (Product.init "bread" 3 [("flour", 2); ("yeast", 1)] 10)
                   (conj (or_introl eq_refl) eq_refl)) "bread") as [_ ->].
    reflexivity.
  - apply (proj2 (add_product_lookup "scone" 2 [("flour", 1)] 50 Sample.shop)).
    simpl. intros p [<-|[<-|[]]]; discriminate.
Defined.

(** X4: a confirmed [delete_product] removes every product of that name,
    not only the first, and keeps the others in their order; afterwards the
    price lookup of the name gives 0, lookups of other names are as before,
    and every order that asks for the name is refused.  Unconfirmed, it
    changes nothing. *)
Theorem delete_product_removes_name (product_name : string) (w : World) :
  let w' := exec (delete_product product_name true) w in
  products (self w')
  = filter (fun p => negb (Product.name p == product_name)) (products (self w)) /\
  (forall p, In p (products (self w')) <->
             In p (products (self w)) /\ Product.name p <> product_name) /\
  get_product_price (self w') product_name = 0 /\
  (forall n, n <> product_name ->
     next_product n (products (self w')) = next_product n (products (self w))) /\
  (forall c customer_name items qty,
     In (product_name, qty) items ->
     create_order c customer_name items w' = (Returned false, w')) /\
  exec (delete_product product_name false) w = w.
Proof.
  intros w'.
  assert (E : products (self w')
              = filter (fun p => negb (Product.name p == product_name)) (products (self w))).
  { subst w'. simpl. rewrite list_comp_spec. apply map_id. }
  split; [exact E|]. split; [|split; [|split; [|split]]].
  - intros p. rewrite E, filter_In, negb_true_iff, String.eqb_neq. tauto.
  - unfold get_product_price. now rewrite E, next_product_filter_same.
  - intros n Hn. rewrite E. now apply next_product_filter_other.
  - intros c customer_name items qty Hin. rewrite create_order_eq.
    rewrite (items_in_stock_missing _ _ _ _ Hin); [reflexivity|].
    rewrite E. apply next_product_filter_same.
  - reflexivity.
Qed.

Lemma delete_product_removes_name_witness :
  create_order Sample.clock "Eve" [("cake", 1); ("bread", 1)]
    (exec (delete_product "bread" true) Sample.twins)
  = (Returned false, exec (delete_product "bread" true) Sample.twins).
Proof.
  apply (proj1 (proj2 (proj2 (proj2 (proj2
           (delete_product_removes_name "bread" Sample.twins)))))
           Sample.clock "Eve" [("cake", 1); ("bread", 1)] 1).
  simpl. right. left. reflexivity.
Defined.

(** ** Stock *)

Lemma next_product_nth (ps : list Product.t) :
  forall i p,
    nth_error ps i = Some p ->
    existsb (fun p' => Product.name p' == Product.name p) (firstn i ps) = false ->
    next_product (Product.name p) ps = Some p.
Proof.
  unfold next_product.
  induction ps as [|a ps IH]; intros [|i] p Hp Hb; simpl in *; try discriminate.
  - injection Hp as ->. now rewrite String.eqb_refl.
  - apply orb_false_iff in Hb. destruct Hb as [Ha Hb]. rewrite Ha. now apply (IH i).
Qed.

Lemma deduct_all_nonneg (items : dict) (ps : list Product.t) :
  dict_wf items ->
  items_in_stock ps items = true ->
  Forall (fun p => 0 <= Product.quantity p) ps ->
  Forall (fun p => 0 <= Product.quantity p) (deduct_all items ps).
Proof.
  intros Hwf Hs Hps. apply Forall_forall. intros p' Hin.
  apply In_nth_error in Hin. destruct Hin as [i Hi].
  assert (Hlen : List.length (deduct_all items ps) = List.length ps).
  { rewrite <- (length_map Product.name), deduct_all_names. apply length_map. }
  destruct (nth_error ps i) as [p|] eqn:Hp.
  2:{ apply nth_error_None in Hp. rewrite <- Hlen in Hp.
      apply nth_error_None in Hp. congruence. }
  rewrite (deduct_all_nth items _ _ _ Hp) in Hi. injection Hi as <-.
  assert (Hq : 0 <= Product.quantity p).
  { rewrite Forall_forall in Hps. apply Hps. exact (nth_error_In _ i Hp). }
  destruct (existsb _ (firstn i ps)) eqn:Hb; [exact Hq|]. simpl.
  destruct (in_dec string_dec (Product.name p) (map fst items)) as [Hk|Hk].
  - apply in_map_iff in Hk. destruct Hk as ([k q] & Hfst & Hkq). simpl in Hfst. subst k.
    rewrite (ordered_in items _ q Hwf Hkq).
    destruct (proj1 (items_in_stock_spec ps items) Hs _ _ Hkq) as (p0 & Hp0 & Hle).
    rewrite (next_product_nth ps i p Hp Hb) in Hp0. injection Hp0 as <-. lia.
  - rewrite (ordered_not_in items _ Hk). lia.
Qed.

(** ** The order-update form *)

Section Order_update.
Context {B : Builtins}.

(** X6: a submission of the order-update form that ends in an error
    message changes nothing.  One that passes the checks (three non-empty
    fields, a quantity that parses to a positive number, an order with that
    id, a product with that name holding at least the quantity) changes
    the first order with the id and the first product with the name, and
    nothing else: the order gets the quantity added to its item (or the
    item set, when absent), its total raised by the product price times the
    quantity, and the status "Updated"; the product loses the quantity; the
    result is saved. *)
Theorem update_order_status_submit_effect (order_id product_name quantity : string) (w : World) :
  (forall msg,
     fst (update_order_status_submit order_id product_name quantity w)
     = Returned (Some (showerror msg)) ->
     snd (update_order_status_submit order_id product_name quantity w) = w) /\
  (forall q before order after pbefore product pafter,
     order_id <> "" -> product_name <> "" -> quantity <> "" ->
     py_float quantity = Some q -> 0 < q ->
     orders (self w) = before ++ order :: after ->
     Order.order_id order = order_id ->
     (forall o, In o before -> Order.order_id o <> order_id) ->
     products (self w) = pbefore ++ product :: pafter ->
     Product.name product = product_name ->
     (forall p, In p pbefore -> Product.name p <> product_name) ->
     q <= Product.quantity product ->
     update_order_status_submit order_id product_name quantity w
     = (Returned (Some (showinfo (AddedToOrder q product_name order_id))),
        let m :=
          {| ingredients := ingredients (self w);
             products :=
               pbefore
               ++ Product.init product_name (Product.price product) (Product.recipe product)
                    (Product.quantity product - q) :: pafter;
             orders :=
               before
               ++ Order.make order_id (Order.customer_name order)
                    (dict_set product_name
                       (match dict_get product_name (Order.items order) with
                        | Some n => n + q
                        | None => q
                        end) (Order.items order))
                    (Order.total order + Product.price product * q)
                    "Updated" (Order.timestamp order) :: after;
             staff := staff (self w) |} in
        {| self := m; disk := m |})).
Proof.
  split.
  - intros msg. unfold update_order_status_submit, error, ret.
    destruct ((order_id == "") || (product_name == "") || (quantity == "")); [reflexivity|].
    destruct (py_float quantity) as [q|]; [|reflexivity].
    destruct (q <=? 0); [reflexivity|].
    unfold bind, gets; cbn beta iota.
    destruct (next_order order_id (orders (self w))); [|reflexivity].
    destruct (next_product product_name (products (self w))) as [product|]; [|reflexivity].
    destruct (Product.quantity product <? q); [reflexivity|].
    simpl. discriminate.
  - intros q before order after pbefore product pafter Hid Hpn Hqt Hq Hpos Hos Hoid Hob
           Hps Hname Hpb Hle.
    assert (Hfo : forall o, In o before -> (Order.order_id o == order_id) = false)
      by (intros o Ho; apply eqb_false_of_neq; auto).
    assert (Hfp : forall p, In p pbefore -> (Product.name p == product_name) = false)
      by (intros p Hp; apply eqb_false_of_neq; auto).
    assert (Hto : (Order.order_id order == order_id) = true) by now apply String.eqb_eq.
    assert (Htp : (Product.name product == product_name) = true) by now apply String.eqb_eq.
    unfold update_order_status_submit.
    rewrite (eqb_false_of_neq _ _ Hid), (eqb_false_of_neq _ _ Hpn),
      (eqb_false_of_neq _ _ Hqt), Hq.
    cbn [orb]. replace (q <=? 0) with false by (symmetry; apply Z.leb_gt; lia).
    unfold bind, gets; cbn beta iota.
    unfold next_order. rewrite Hos, (find_first (fun o => Order.order_id o == order_id) _ _ _ Hto Hfo). cbn beta iota.
    unfold next_product. rewrite Hps, (find_first (fun p => Product.name p == product_name) _ _ _ Htp Hfp).
    replace (Product.quantity product <? q) with false by (symmetry; apply Z.ltb_ge; lia).
    unfold on_order, on_product, modify, save_data, ret, set_orders, set_products.
    cbn beta iota. cbn [self orders products ingredients staff disk]. rewrite Hos, Hps.
    repeat (rewrite (update_first_first (fun o => Order.order_id o == order_id));
            [ | exact Hto | exact Hfo ]).
    rewrite (update_first_first (fun p => Product.name p == product_name));
      [ | exact Htp | exact Hfp ].
    unfold Order.with_status, Order.with_total, Order.with_items, Product.with_quantity.
    cbn [Order.order_id Order.customer_name Order.items Order.total Order.status
         Order.timestamp].
    rewrite Hoid, Hname.
    destruct (dict_get product_name (Order.items order)); reflexivity.
Qed.

End Order_update.

Lemma update_order_status_submit_effect_witness :
  update_order_status_submit (B := Plain.builtins) "20231231100000" "bread" "2" Sample.shop
  = (Returned (Some (showinfo (AddedToOrder 2 "bread" "20231231100000"))),
     let m :=
       {| ingredients := ingredients Sample.lists;
          products :=
            [ Product.init "bread" 3 [("flour", 2); ("yeast", 1)] 8;
              Product.init "cake" 12 [("flour", 1); ("sugar", 1)] 4 ];
          orders :=
            [ Order.make "20231231090000" "Ann" [("bread", 2)] 6 "Completed" 1704013200;
              Order.make "20231231100000" "Bob" [("cake", 1); ("bread", 2)] 18 "Updated"
                1704016800;
              Order.make "20231231110000" "Cid" [("bread", 1); ("cake", 1)] 15 "Updated"
                1704020400 ];
          staff := staff Sample.lists |} in
     {| self := m; disk := m |}).
Proof.
  apply (proj2 (update_order_status_submit_effect (B := Plain.builtins)
                  "20231231100000" "bread" "2" Sample.shop)
           2
           [Order.make "20231231090000" "Ann" [("bread", 2)] 6 "Completed" 1704013200]
           (Order.make "20231231100000" "Bob" [("cake", 1)] 12 "Pending" 1704016800)
           [Order.make "20231231110000" "Cid" [("bread", 1); ("cake", 1)] 15 "Updated"
              1704020400]
           []
           (Product.init "bread" 3 [("flour", 2); ("yeast", 1)] 10)
           [Product.init "cake" 12 [("flour", 1); ("sugar", 1)] 4]);
    try reflexivity; try discriminate; try lia.
  - simpl. intros o [<-|[]]. discriminate.
  - intros p [].
Defined.

(** ** Sales report after an operation *)

Lemma total_sales_by_status (m : BakeryManager) :
  total_sales (generate_sales_report m)
  = Zsum (map (fun o => if Order.status o == "Completed" then Order.total o else 0)
            (orders m)).
Proof.
  simpl. rewrite py_sum_Zsum, list_comp_spec.
  induction (orders m) as [|o os IH]; [reflexivity|].
  cbn [filter map Zsum].
  destruct (Order.status o == "Completed"); cbn [map Zsum]; lia.
Qed.

(** X8: a successful [create_order] raises [total_orders] of the sales
    report by one and leaves [total_sales] as it was: the new order is
    pending and counts in the sales only once it is marked complete. *)
Theorem create_order_then_sales_report
    (c : Order.clock) (customer_name : string) (items : dict) (w w' : World) :
  create_order c customer_name items w = (Returned true, w') ->
  total_orders (generate_sales_report (self w'))
  = total_orders (generate_sales_report (self w)) + 1 /\
  total_sales (generate_sales_report (self w')) = total_sales (generate_sales_report (self w)).
Proof.
  rewrite create_order_eq.
  destruct (items_in_stock (products (self w)) items); [|discriminate].
  intros E. injection E as <-. split.
  - simpl. rewrite length_app. simpl. lia.
  - rewrite !total_sales_by_status. simpl. rewrite map_app. simpl.
    generalize (map (fun o => if Order.status o == "Completed" then Order.total o else 0)
                  (orders (self w))).
    intros l. induction l as [|x l IH]; simpl; lia.
Qed.

Lemma create_order_then_sales_report_witness :
  total_orders
    (generate_sales_report
       (self (order_created Sample.clock "Eve" [("bread", 2)] Sample.shop))) = 3 + 1 /\
  total_sales
    (generate_sales_report
       (self (order_created Sample.clock "Eve" [("bread", 2)] Sample.shop))) = 6.
Proof.
  apply (create_order_then_sales_report Sample.clock "Eve" [("bread", 2)] Sample.shop).
  reflexivity.
Defined.


(** ** Deleting orders and sold items *)

Lemma delete_sold_item_cases (product_name order_id : string) (confirm : bool) (w : World) :
  exec (delete_sold_item product_name order_id confirm) w = w /\
  (confirm = false \/ next_order order_id (orders (self w)) = None \/
   exists order, next_order order_id (orders (self w)) = Some order /\
                 dict_mem product_name (Order.items order) = false)
  \/
  confirm = true /\
  (exists order, next_order order_id (orders (self w)) = Some order /\
                 dict_mem product_name (Order.items order) = true) /\
  self (exec (delete_sold_item product_name order_id confirm) w)
  = set_orders
      (update_first (fun o => Order.order_id o == order_id)
         (fun o => Order.with_items (dict_del product_name (Order.items o)) o)
         (orders (self w)))
      (self w).
Proof.
  unfold exec, delete_sold_item. destruct confirm; [|left; split; [reflexivity | now left]].
  unfold bind, gets; cbn beta iota.
  destruct (next_order order_id (orders (self w))) as [order|] eqn:Ho;
    [|left; split; [reflexivity | right; now left]].
  destruct (dict_mem product_name (Order.items order)) eqn:Hm.
  - right. split; [reflexivity|]. split; [eauto | reflexivity].
  - left. split; [reflexivity|]. right. right. eauto.
Qed.

(** X10: deleting an item from an order in the sold-items view removes
    the item from the first order with that id and changes nothing else: the
    total of the order, the sales total and the stock of the product stay as
    they were.  Unconfirmed, or when no order has the id, nothing changes. *)
Theorem delete_sold_item_keeps_totals_and_stock
    (product_name order_id : string) (confirm : bool) (w : World) :
  let w' := exec (delete_sold_item product_name order_id confirm) w in
  products (self w') = products (self w) /\
  map Order.total (orders (self w')) = map Order.total (orders (self w)) /\
  map Order.status (orders (self w')) = map Order.status (orders (self w)) /\
  total_sales (generate_sales_report (self w'))
  = total_sales (generate_sales_report (self w)) /\
  (forall before order after,
     confirm = true ->
     orders (self w) = before ++ order :: after ->
     Order.order_id order = order_id ->
     (forall o, In o before -> Order.order_id o <> order_id) ->
     dict_mem product_name (Order.items order) = true ->
     orders (self w')
     = before
       ++ Order.with_items (dict_del product_name (Order.items order)) order :: after) /\
  (confirm = false \/ next_order order_id (orders (self w)) = None -> w' = w).
Proof.
  intros w'. subst w'. rewrite !total_sales_by_status.
  destruct (delete_sold_item_cases product_name order_id confirm w)
    as [[-> Hwhy] | (Hc & (order0 & Ho & Hm) & ->)].
  - repeat split; try reflexivity.
    intros before order after Hc Hos Hid Hb Hmem. exfalso.
    assert (Hfind : next_order order_id (orders (self w)) = Some order).
    { unfold next_order. rewrite Hos.
      apply (find_first (fun o => Order.order_id o == order_id));
        [now apply String.eqb_eq|].
      intros o Hin. apply eqb_false_of_neq. now apply Hb. }
    destruct Hwhy as [Hf | [Hn | (o & Ho & Hm)]]; congruence.
  - simpl. split; [reflexivity|]. split; [now apply update_first_map|].
    split; [now apply update_first_map|]. split.
    { f_equal. now apply update_first_map. }
    split.
    + intros before order after _ Hos Hid Hb Hmem. rewrite Hos.
      rewrite (update_first_first (fun o => Order.order_id o == order_id)
                 (fun o => Order.with_items (dict_del product_name (Order.items o)) o));
        [reflexivity | now apply String.eqb_eq |].
      intros o Hin. apply eqb_false_of_neq. now apply Hb.
    + intros [Hf | Hn]; congruence.
Qed.

Lemma delete_sold_item_keeps_totals_and_stock_witness :
  orders (self (exec (delete_sold_item "bread" "20231231090000" true) Sample.shop))
  = [ Order.make "20231231090000" "Ann" [] 6 "Completed" 1704013200;
      Order.make "20231231100000" "Bob" [("cake", 1)] 12 "Pending" 1704016800;
      Order.make "20231231110000" "Cid" [("bread", 1); ("cake", 1)] 15 "Updated"
        1704020400 ].
Proof.
  apply (proj1 (proj2 (proj2 (proj2 (proj2
           (delete_sold_item_keeps_totals_and_stock "bread" "20231231090000" true
              Sample.shop)))))
           []
           (Order.make "20231231090000" "Ann" [("bread", 2)] 6 "Completed" 1704013200)
           [ Order.make "20231231100000" "Bob" [("cake", 1)] 12 "Pending" 1704016800;
             Order.make "20231231110000" "Cid" [("bread", 1); ("cake", 1)] 15 "Updated"
               1704020400 ]);
    try reflexivity.
  intros o [].
Defined.

(** X11: deleting an order removes the first order with that id from the
    list and saves; the products are not touched, so the stock the order
    took is not returned.  Unconfirmed, or when no order has the id,
    nothing changes. *)
Theorem delete_order_first_match (order_id : string) (w : World) :
  (forall before order after,
     orders (self w) = before ++ order :: after ->
     Order.order_id order = order_id ->
     (forall o, In o before -> Order.order_id o <> order_id) ->
     delete_order order_id true w
     = (Returned tt,
        let m := set_orders (before ++ after) (self w) in {| self := m; disk := m |}) /\
     products (self (exec (delete_order order_id true) w)) = products (self w) /\
     total_orders (generate_sales_report (self (exec (delete_order order_id true) w)))
     = total_orders (generate_sales_report (self w)) - 1) /\
  ((forall o, In o (orders (self w)) -> Order.order_id o <> order_id) ->
   delete_order order_id true w = (Returned tt, w)) /\
  delete_order order_id false w = (Returned tt, w).
Proof.
  split; [|split].
  - intros before order after Hos Hid Hb.
    assert (Ht : (Order.order_id order == order_id) = true) by now apply String.eqb_eq.
    assert (Hf : forall o, In o before -> (Order.order_id o == order_id) = false)
      by (intros o Hin; apply eqb_false_of_neq; auto).
    assert (E : delete_order order_id true w
                = (Returned tt,
                   let m := set_orders (before ++ after) (self w) in
                   {| self := m; disk := m |})).
    { unfold delete_order, bind, gets; cbn beta iota. unfold next_order. rewrite Hos.
      rewrite (find_first (fun o => Order.order_id o == order_id) _ _ _ Ht Hf).
      unfold modify, save_data. cbn beta iota. cbn [self orders set_orders disk]. rewrite Hos.
      now rewrite (remove_first_first (fun o => Order.order_id o == order_id) _ _ _ Ht Hf). }
    split; [exact E|]. unfold exec. rewrite E. simpl. split; [reflexivity|].
    rewrite Hos, !length_app. simpl. lia.
  - intros Hnone. unfold delete_order, bind, gets; cbn beta iota. unfold next_order.
    rewrite find_absent; [reflexivity|].
    intros o Hin. apply eqb_false_of_neq. now apply Hnone.
  - unfold delete_order, bind, gets; cbn beta iota.
    destruct (next_order order_id (orders (self w))); reflexivity.
Qed.

Lemma delete_order_first_match_witness :
  orders (self (exec (delete_order "20231231100000" true) Sample.shop))
  = [ Order.make "20231231090000" "Ann" [("bread", 2)] 6 "Completed" 1704013200;
      Order.make "20231231110000" "Cid" [("bread", 1); ("cake", 1)] 15 "Updated"
        1704020400 ].
Proof.
  assert (Hb : forall o,
             In o [Order.make "20231231090000" "Ann" [("bread", 2)] 6 "Completed" 1704013200] ->
             Order.order_id o <> "20231231100000").
  { intros o [<-|[]]. discriminate. }
  unfold exec.
  rewrite (proj1 (proj1 (delete_order_first_match "20231231100000" Sample.shop)
             [Order.make "20231231090000" "Ann" [("bread", 2)] 6 "Completed" 1704013200]
             (Order.make "20231231100000" "Bob" [("cake", 1)] 12 "Pending" 1704016800)
             [Order.make "20231231110000" "Cid" [("bread", 1); ("cake", 1)] 15 "Updated"
                1704020400]
             eq_refl eq_refl Hb)).
  reflexivity.
Defined.

(** ** Deleting by index *)

(** X12: [delete_staff] accepts an index only from 0 up to the length of
    the staff list: inside that range a confirmed call removes exactly the
    member at the index and saves, an unconfirmed one does nothing; outside
    it (a negative index included) an error is shown and nothing changes. *)
Theorem delete_staff_bounds (index : Z) (w : World) :
  (0 <= index < Z.of_nat (List.length (staff (self w))) ->
   delete_staff index true w
   = (Returned None,
      let m :=
        set_staff (firstn (Z.to_nat index) (staff (self w))
                   ++ skipn (S (Z.to_nat index)) (staff (self w))) (self w) in
      {| self := m; disk := m |}) /\
   List.length (staff (self (exec (delete_staff index true) w)))
   = pred (List.length (staff (self w))) /\
   delete_staff index false w = (Returned None, w)) /\
  (index < 0 \/ Z.of_nat (List.length (staff (self w))) <= index ->
   forall confirm,
     delete_staff index confirm w
     = (Returned (Some (showerror (Text "Invalid staff member selection!"))), w)).
Proof.
  split.
  - intros Hi.
    assert (Hb : (0 <=? index) && (index <? Z.of_nat (List.length (staff (self w)))) = true).
    { apply andb_true_iff. split; [apply Z.leb_le | apply Z.ltb_lt]; lia. }
    assert (E : delete_staff index true w
                = (Returned None,
                   let m :=
                     set_staff (firstn (Z.to_nat index) (staff (self w))
                                ++ skipn (S (Z.to_nat index)) (staff (self w))) (self w) in
                   {| self := m; disk := m |})).
    { unfold delete_staff, bind, gets; cbn beta iota. rewrite Hb.
      unfold modify, save_data, ret. cbn beta iota. cbn [self staff set_staff disk].
      now rewrite delete_at_split. }
    split; [exact E|]. split.
    + unfold exec. rewrite E. cbn [snd self staff set_staff].
      rewrite length_app, length_firstn, length_skipn. lia.
    + unfold delete_staff, bind, gets; cbn beta iota. now rewrite Hb.
  - intros Hout confirm.
    assert (Hb : (0 <=? index) && (index <? Z.of_nat (List.length (staff (self w)))) = false).
    { apply andb_false_iff. destruct Hout; [left; apply Z.leb_gt | right; apply Z.ltb_ge]; lia. }
    unfold delete_staff, bind, gets; cbn beta iota. now rewrite Hb.
Qed.

Lemma delete_staff_bounds_witness :
  staff (self (exec (delete_staff 0 true) Sample.shop)) = [] /\
  delete_staff (-1) true Sample.shop
  = (Returned (Some (showerror (Text "Invalid staff member selection!"))), Sample.shop).
Proof.
  split.
  - unfold exec.
    rewrite (proj1 (proj1 (delete_staff_bounds 0 Sample.shop) ltac:(simpl; lia))).
    reflexivity.
  - apply (proj2 (delete_staff_bounds (-1) Sample.shop)). left. lia.
Defined.

(** X13: [delete_ingredient] follows Python's indexing: an index from 0
    up to the length removes the ingredient at it, an index from minus the
    length up to -1 removes the one counted from the end, and any other
    index shows an error and changes nothing; a removal needs the
    confirmation and is saved. *)
Theorem delete_ingredient_bounds (index : Z) (w : World) :
  let n := Z.of_nat (List.length (ingredients (self w))) in
  let deleted i :=
    (Returned (@None dialog),
     let m := set_ingredients (firstn i (ingredients (self w))
                               ++ skipn (S i) (ingredients (self w))) (self w) in
     {| self := m; disk := m |}) in
  (0 <= index < n -> delete_ingredient index true w = deleted (Z.to_nat index)) /\
  (- n <= index < 0 -> delete_ingredient index true w = deleted (Z.to_nat (n + index))) /\
  (index < - n \/ n <= index ->
   forall confirm,
     delete_ingredient index confirm w
     = (Returned (Some (showerror (Text "Ingredient not found!"))), w)) /\
  (- n <= index < n -> delete_ingredient index false w = (Returned None, w)).
Proof.
  intros n deleted. subst deleted. cbv beta.
  assert (Hrun : forall i, py_index (List.length (ingredients (self w))) index = Some i ->
            delete_ingredient index true w
            = (Returned None,
               let m := set_ingredients (firstn i (ingredients (self w))
                                         ++ skipn (S i) (ingredients (self w))) (self w) in
               {| self := m; disk := m |}) /\
            delete_ingredient index false w = (Returned None, w)).
  { intros i Hi. unfold delete_ingredient, bind, gets; cbn beta iota. rewrite Hi.
    unfold modify, save_data, ret. cbn beta iota.
    cbn [self ingredients set_ingredients disk]. now rewrite delete_at_split. }
  unfold py_index in Hrun. fold n in Hrun.
  destruct ((0 <=? index) && (index <? n)) eqn:H1.
  - apply andb_true_iff in H1. destruct H1 as [Ha Hb].
    apply Z.leb_le in Ha. apply Z.ltb_lt in Hb.
    destruct (Hrun _ eq_refl) as [Ht Hf].
    split; [intros _; exact Ht|]. split; [lia|]. split; [lia|]. intros _; exact Hf.
  - assert (Hout : index < 0 \/ n <= index).
    { apply andb_false_iff in H1. destruct H1 as [H1|H1];
        [left; apply Z.leb_gt in H1 | right; apply Z.ltb_ge in H1]; lia. }
    destruct ((index <? 0) && (- n <=? index)) eqn:H2.
    + apply andb_true_iff in H2. destruct H2 as [Ha Hb].
      apply Z.ltb_lt in Ha. apply Z.leb_le in Hb.
      destruct (Hrun _ eq_refl) as [Ht Hf].
      split; [lia|]. split; [intros _; exact Ht|]. split; [lia|]. intros _; exact Hf.
    + assert (Hout2 : index < - n \/ n <= index).
      { apply andb_false_iff in H2. destruct H2 as [H2|H2];
          [apply Z.ltb_ge in H2 | apply Z.leb_gt in H2]; lia. }
      split; [lia|]. split; [lia|]. split; [|lia].
      intros _ confirm. unfold delete_ingredient, bind, gets; cbn beta iota.
      unfold py_index. fold n. now rewrite H1, H2.
Qed.

Lemma delete_ingredient_bounds_witness :
  map Ingredient.name (ingredients (self (exec (delete_ingredient (-1) true) Sample.shop)))
  = ["flour"; "sugar"] /\
  delete_ingredient 3 true Sample.shop
  = (Returned (Some (showerror (Text "Ingredient not found!"))), Sample.shop).
Proof.
  split.
  - unfold exec.
    rewrite (proj1 (proj2 (delete_ingredient_bounds (-1) Sample.shop)) ltac:(simpl; lia)).
    reflexivity.
  - apply (proj1 (proj2 (proj2 (delete_ingredient_bounds 3 Sample.shop)))).
    right. simpl. lia.
Defined.

(** ** Staff roles under every operation *)

Lemma In_delete_at {A : Type} (x : A) (l : list A) :
  forall i, In x (delete_at i l) -> In x l.
Proof.
  induction l as [|b l IH]; intros [|i] Hin; simpl in *; try contradiction.
  - now right.
  - destruct Hin as [<-|Hin]; [now left | right; eauto].
Qed.

Lemma NoDup_map_delete_at {A C : Type} (h : A -> C) (l : list A) :
  NoDup (map h l) -> forall i, NoDup (map h (delete_at i l)).
Proof.
  induction l as [|a l IH]; intros Hnd i.
  - destruct i; constructor.
  - inversion Hnd as [|? ? Hnotin Hnd']; subst. destruct i as [|i]; simpl; [assumption|].
    constructor; [|now apply IH].
    intros Hin. apply Hnotin. apply in_map_iff in Hin. destruct Hin as (x & Hx & Hin).
    apply in_map_iff. exists x. split; [assumption|]. eapply In_delete_at. exact Hin.
Qed.

Section Roles.
Context {B : Builtins}.

Lemma add_staff_submit_roles (name roll shifts_input : string) (w : World) :
  roles_distinct w -> roles_distinct (exec (add_staff_submit name roll shifts_input) w).
Proof.
  intros Hnd. unfold exec, add_staff_submit, error, ret.
  destruct ((name == "") && (roll == "") && (shifts_input == "")); [exact Hnd|].
  destruct (name == ""); [exact Hnd|].
  destruct (roll == ""); [exact Hnd|].
  destruct (py_int roll); [|exact Hnd].
  destruct (shifts_input == ""); [exact Hnd|].
  unfold bind, gets; cbn beta iota.
  destruct (find (fun s0 => Staff.role s0 == roll) (staff (self w))) eqn:Hf; [exact Hnd|].
  destruct (list_comp _ _ _) as [|shift shifts]; [exact Hnd|].
  unfold roles_distinct. simpl. rewrite map_app. simpl.
  apply NoDup_snoc; [exact Hnd | now apply find_role_none].
Qed.

(** X14: every operation reachable from the forms keeps the staff roles
    pairwise distinct once they are; only a direct call of
    [BakeryManager.add_staff] can bring in a second member with a role. *)
Theorem step_keeps_roles_distinct (o : op) (w : World) :
  match o with AddStaff _ _ _ => False | _ => True end ->
  roles_distinct w -> roles_distinct (step o w).
Proof.
  intros Ho Hw.
  assert (Hsame : forall w', staff (self w') = staff (self w) -> roles_distinct w').
  { intros w' E. unfold roles_distinct. now rewrite E. }
  destruct o; try contradiction; unfold step.
  - now apply Hsame.
  - apply Hsame. unfold exec, restock_ingredient, bind, gets.
    destruct (restock_in name quantity (ingredients (self w))); reflexivity.
  - now apply Hsame.
  - apply Hsame. unfold exec. rewrite create_order_eq.
    destruct (items_in_stock (products (self w)) items); reflexivity.
  - apply Hsame. unfold exec, update_order_status_submit, error, ret.
    destruct ((order_id == "") || (product_name == "") || (quantity == "")); [reflexivity|].
    destruct (py_float quantity) as [q|]; [|reflexivity].
    destruct (q <=? 0); [reflexivity|].
    unfold bind, gets; cbn beta iota.
    destruct (next_order order_id (orders (self w))); [|reflexivity].
    destruct (next_product product_name (products (self w))) as [product|]; [|reflexivity].
    destruct (Product.quantity product <? q); reflexivity.
  - now apply add_staff_submit_roles.
  - apply Hsame. unfold exec, product_status_submit, error, ret.
    destruct ((product_name == "") || (quantity == "")); [reflexivity|].
    destruct (py_float quantity); [|reflexivity].
    unfold bind, gets; cbn beta iota.
    destruct (next_product product_name (products (self w))); reflexivity.
  - now apply Hsame.
  - apply Hsame. destruct confirm; reflexivity.
  - apply Hsame. unfold exec, delete_order, bind, gets; cbn beta iota.
    destruct (next_order order_id (orders (self w))); [destruct confirm|]; reflexivity.
  - apply Hsame. unfold exec, delete_sold_item. destruct confirm; [|reflexivity].
    unfold bind, gets; cbn beta iota.
    destruct (next_order order_id (orders (self w))) as [order|]; [|reflexivity].
    destruct (dict_mem product_name (Order.items order)); reflexivity.
  - unfold exec, delete_staff, bind, gets, error, ret; cbn beta iota.
    destruct ((0 <=? index) && (index <? Z.of_nat (List.length (staff (self w)))));
      [|exact Hw].
    destruct confirm; [|exact Hw].
    unfold roles_distinct. simpl. now apply NoDup_map_delete_at.
  - apply Hsame. unfold exec, delete_ingredient, bind, gets, error, ret; cbn beta iota.
    destruct (py_index (List.length (ingredients (self w))) index);
      [destruct confirm|]; reflexivity.
Qed.
End Roles.

Lemma step_keeps_roles_distinct_witness :
  roles_distinct (step (B := Plain.builtins) (AddStaffSubmit "Fay" "1" "night") Sample.shop) /\
  roles_distinct (step (B := Plain.builtins) (AddStaffSubmit "Fay" "2" "night") Sample.shop).
Proof.
  assert (H : roles_distinct Sample.shop).
  { unfold roles_distinct. simpl. constructor; [intros [] | constructor]. }
  split; apply (step_keeps_roles_distinct (B := Plain.builtins)); try exact I; exact H.
Defined.

(** ** Dicts *)

Lemma dict_get_set_same (k : string) (v : Z) (d : dict) :
  dict_get k (dict_set k v d) = Some v.
Proof.
  unfold dict_get. induction d as [|[k' v'] d IH]; simpl.
  - now rewrite String.eqb_refl.
  - destruct (k' == k) eqn:E; simpl; [now rewrite String.eqb_refl | now rewrite E].
Qed.

Lemma dict_get_set_other (k k' : string) (v : Z) (d : dict) :
  k' <> k -> dict_get k' (dict_set k v d) = dict_get k' d.
Proof.
  intros Hk. unfold dict_get. induction d as [|[k0 v0] d IH]; simpl.
  - now rewrite (eqb_false_of_neq k k') by congruence.
  - destruct (k0 == k) eqn:E; simpl.
    + apply String.eqb_eq in E. subst k0.
      now rewrite (eqb_false_of_neq k k') by congruence.
    + destruct (k0 == k'); [reflexivity | exact IH].
Qed.

Lemma dict_set_keys (k : string) (v : Z) (d : dict) :
  map fst (dict_set k v d) = if dict_mem k d then map fst d else map fst d ++ [k].
Proof.
  unfold dict_mem. induction d as [|[k' v'] d IH]; simpl; [reflexivity|].
  destruct (k' == k) eqn:E; simpl.
  - apply String.eqb_eq in E. now subst k'.
  - rewrite IH. now destruct (existsb _ d).
Qed.

Lemma dict_mem_in (k : string) (d : dict) : dict_mem k d = true <-> In k (map fst d).
Proof.
  unfold dict_mem. rewrite existsb_exists, in_map_iff. split.
  - intros (kv & Hin & E). apply String.eqb_eq in E. eauto.
  - intros (kv & E & Hin). exists kv. split; [assumption | now apply String.eqb_eq].
Qed.

Lemma dict_set_wf (k : string) (v : Z) (d : dict) : dict_wf d -> dict_wf (dict_set k v d).
Proof.
  unfold dict_wf. intros Hd. rewrite dict_set_keys.
  destruct (dict_mem k d) eqn:Hm; [assumption|].
  apply NoDup_snoc; [assumption|]. intros Hin. apply dict_mem_in in Hin. congruence.
Qed.

Lemma dict_get_in (d : dict) (n : string) (c : Z) :
  dict_wf d -> (In (n, c) d <-> dict_get n d = Some c).
Proof.
  unfold dict_wf, dict_get. induction d as [|[k v] d IH]; simpl; intros Hnd.
  - split; [tauto | discriminate].
  - inversion Hnd as [|? ? Hk Hnd']; subst. destruct (k == n) eqn:E; simpl.
    + apply String.eqb_eq in E. subst k. split.
      * intros [H|H]; [congruence|]. exfalso. apply Hk.
        change n with (fst (n, c)). now apply in_map.
      * intros H. left. congruence.
    + rewrite <- (IH Hnd'). split; [|tauto].
      intros [H|H]; [|assumption]. apply String.eqb_neq in E. congruence.
Qed.

(** ** get_popular_products *)

Lemma insert_desc_perm (x : string * Z) (l : list (string * Z)) :
  Permutation (insert_desc x l) (x :: l).
Proof.
  induction l as [|y l IH]; simpl; [reflexivity|].
  destruct (snd y <? snd x); [reflexivity|].
  rewrite IH. apply perm_swap.
Qed.

Lemma sorted_desc_perm (l : list (string * Z)) : Permutation (sorted_desc l) l.
Proof.
  unfold sorted_desc.
  assert (H : forall acc, Permutation (fold_left (fun acc x => insert_desc x acc) l acc)
                            (acc ++ l)).
  { induction l as [|x l IH]; intros acc; simpl.
    - now rewrite app_nil_r.
    - rewrite IH, insert_desc_perm. apply Permutation_middle. }
  apply (H []).
Qed.

Lemma counts_flat (step : dict -> string * Z -> dict) (os : list Order.t) (d : dict) :
  fold_left (fun counts order => fold_left step (Order.items order) counts) os d
  = fold_left step (flat_map Order.items os) d.
Proof.
  revert d; induction os as [|o os IH]; intros d; simpl; [reflexivity|].
  now rewrite fold_left_app, IH.
Qed.

(** The tally loop: which names it holds, and the count of each, added up
    from the left in the order in which the items are met. *)
Lemma counts_spec (l : dict) :
  forall d,
    dict_wf d ->
    let d' :=
      fold_left
        (fun counts '(product, qty) =>
           dict_set product
             (match dict_get product counts with Some n => n | None => 0 end + qty) counts)
        l d in
    dict_wf d' /\
    forall n,
      dict_mem n d' = dict_mem n d || dict_mem n l /\
      match dict_get n d' with Some c => c | None => 0 end
      = fold_left Z.add (map snd (filter (fun kv => fst kv == n) l))
          (match dict_get n d with Some c => c | None => 0 end).
Proof.
  induction l as [|[k v] l IH]; intros d Hd; cbn [fold_left].
  - split; [assumption|]. intros n. rewrite orb_false_r. split; reflexivity.
  - set (d1 := dict_set k (match dict_get k d with Some n => n | None => 0 end + v) d).
    destruct (IH d1 (dict_set_wf _ _ _ Hd)) as [Hwf Hn]. split; [exact Hwf|].
    intros n. destruct (Hn n) as [Hmem Hget]. rewrite Hmem, Hget. clear Hmem Hget Hn IH.
    change (dict_mem n ((k, v) :: l)) with ((k == n) || dict_mem n l).
    cbn [filter fst]. destruct (k == n) eqn:E.
    + apply String.eqb_eq in E. subst k. split.
      * assert (Hm1 : dict_mem n d1 = true).
        { apply dict_mem_in. unfold d1. rewrite dict_set_keys.
          destruct (dict_mem n d) eqn:Hm; [now apply dict_mem_in|].
          apply in_or_app. right. now left. }
        rewrite Hm1. cbn [orb]. now rewrite orb_true_r.
      * unfold d1. rewrite dict_get_set_same. reflexivity.
    + split.
      * cbn [orb]. f_equal. apply String.eqb_neq in E.
        destruct (dict_mem n d1) eqn:H1; destruct (dict_mem n d) eqn:H2; try reflexivity.
        -- apply dict_mem_in in H1. unfold d1 in H1. rewrite dict_set_keys in H1.
           destruct (dict_mem k d).
           ++ apply dict_mem_in in H1. congruence.
           ++ apply in_app_or in H1. destruct H1 as [H1|[H1|[]]]; [|congruence].
              apply dict_mem_in in H1. congruence.
        -- apply dict_mem_in in H2.
           assert (H3 : In n (map fst d1)).
           { unfold d1. rewrite dict_set_keys. destruct (dict_mem k d); [assumption|].
             apply in_or_app. now left. }
           apply dict_mem_in in H3. congruence.
      * apply String.eqb_neq in E. unfold d1.
        rewrite dict_get_set_other by congruence. reflexivity.
Qed.

(** X15: [get_popular_products] lists, in some order, each product name
    that occurs in the items of some order exactly once, with the sum of its
    quantities over all orders (whatever their status), added up from 0 in
    the order in which the items are met. *)
Theorem get_popular_products_counts (m : BakeryManager) :
  NoDup (map fst (get_popular_products m)) /\
  (forall n c,
     In (n, c) (get_popular_products m) <->
     In n (map fst (all_items m)) /\
     c = py_sum (map snd (filter (fun kv => fst kv == n) (all_items m)))).
Proof.
  unfold get_popular_products. rewrite counts_flat. fold (all_items m).
  destruct (counts_spec (all_items m) [] (NoDup_nil _)) as [Hwf Hn].
  cbv zeta in Hwf, Hn.
  match goal with |- context [sorted_desc ?c] => set (counts := c) in * end.
  pose proof (sorted_desc_perm counts) as Hperm.
  split.
  - eapply Permutation_NoDup; [|exact Hwf].
    apply Permutation_map. now symmetry.
  - intros n c. unfold py_sum. split.
    + intros Hin. apply (Permutation_in _ Hperm) in Hin.
      destruct (Hn n) as [Hmem Hget]. simpl in Hmem, Hget.
      assert (Hm : dict_mem n counts = true).
      { apply dict_mem_in. change n with (fst (n, c)). now apply in_map. }
      apply (dict_get_in _ _ _ Hwf) in Hin. rewrite Hin in Hget.
      split; [apply dict_mem_in; congruence | exact Hget].
    + intros [Hin ->]. apply (Permutation_in _ (Permutation_sym Hperm)).
      apply (dict_get_in _ _ _ Hwf).
      destruct (Hn n) as [Hmem Hget]. simpl in Hmem, Hget.
      apply dict_mem_in in Hin. rewrite Hin in Hmem.
      apply dict_mem_in, in_map_iff in Hmem. destruct Hmem as ([k v] & E & Hkv).
      simpl in E. subst k.
      apply (dict_get_in _ _ _ Hwf) in Hkv. rewrite Hkv in Hget |- *. congruence.
Qed.

(** ** The forms *)


Lemma last_nonempty_default {A : Type} (l : list A) (d1 d2 : A) :
  l <> [] -> last l d1 = last l d2.
Proof.
  induction l as [|a l IH]; [congruence|]. intros _. simpl.
  destruct l; [reflexivity | apply IH; discriminate].
Qed.

Lemma last_cons_default {A : Type} (x : A) (l : list A) (d : A) : last (x :: l) d = last l x.
Proof.
  destruct l as [|a l]; [reflexivity|].
  change (last (x :: a :: l) d) with (last (a :: l) d).
  apply last_nonempty_default. discriminate.
Qed.

Lemma last_snd_default {A C : Type} (l : list (A * C)) (a b : A) (q : C) :
  snd (last l (a, q)) = snd (last l (b, q)).
Proof.
  destruct l as [|x l]; [reflexivity|].
  f_equal. apply last_nonempty_default. discriminate.
Qed.

Section Form_facts.
Context {B : Builtins}.

Lemma order_rows_wf (rows : list (string * string)) :
  forall items items', dict_wf items -> order_rows rows items = Some items' -> dict_wf items'.
Proof.
  induction rows as [|[product quantity] rows IH]; simpl; intros items items' Hwf E.
  - now injection E as <-.
  - destruct ((product == "") || (quantity == "")); [now apply (IH items)|].
    destruct (py_int quantity) as [qty|]; [|discriminate].
    apply (IH (dict_set product qty items)); [now apply dict_set_wf | assumption].
Qed.

Lemma recipe_rows_last (rows : list (string * string)) :
  forall recipe quantity_entry recipe' quantity,
    recipe_rows rows recipe quantity_entry = Some (recipe', quantity) ->
    quantity = snd (last rows (EmptyString, quantity_entry)) /\
    (recipe' <> recipe -> rows <> []).
Proof.
  induction rows as [|[ingredient qtext] rows IH]; cbn [recipe_rows];
    intros recipe quantity_entry recipe' quantity E.
  - injection E as <- <-. split; [reflexivity | congruence].
  - split; [|discriminate].
    rewrite last_cons_default, (last_snd_default rows ingredient EmptyString qtext).
    destruct ((ingredient == "") || (qtext == "")).
    + now apply (IH _ _ _ _ E).
    + destruct (py_float qtext) as [q|]; [|discriminate]. now apply (IH _ _ _ _ E).
Qed.

Lemma recipe_rows_entry (rows : list (string * string)) (recipe : dict) (q1 q2 : string) :
  rows <> [] -> recipe_rows rows recipe q1 = recipe_rows rows recipe q2.
Proof. destruct rows as [|[ingredient qtext] rows]; [congruence | reflexivity]. Qed.

(** X16: a form submission that ends in an error message leaves the
    manager and the files exactly as they were; this holds for the forms of
    ingredients, restocking, products, product stock, orders and staff. *)
Theorem form_error_changes_nothing (w : World) (msg : message) :
  (forall name quantity unit reorder,
     fst (add_ingredient_submit name quantity unit reorder w)
     = Returned (Some (showerror msg)) ->
     snd (add_ingredient_submit name quantity unit reorder w) = w) /\
  (forall name quantity,
     fst (restock_submit name quantity w) = Returned (Some (showerror msg)) ->
     snd (restock_submit name quantity w) = w) /\
  (forall name price quantity rows,
     fst (submit_product name price quantity rows w) = Returned (Some (showerror msg)) ->
     snd (submit_product name price quantity rows w) = w) /\
  (forall product_name quantity,
     fst (product_status_submit product_name quantity w) = Returned (Some (showerror msg)) ->
     snd (product_status_submit product_name quantity w) = w) /\
  (forall c customer rows,
     fst (submit_order c customer rows w) = Returned (Some (showerror msg)) ->
     snd (submit_order c customer rows w) = w) /\
  (forall name roll shifts_input,
     fst (add_staff_submit name roll shifts_input w) = Returned (Some (showerror msg)) ->
     snd (add_staff_submit name roll shifts_input w) = w).
Proof.
  split; [|split; [|split; [|split; [|split]]]].
  - intros name quantity unit reorder. unfold add_ingredient_submit, error, ret.
    destruct (existsb _ _); [reflexivity|].
    destruct (py_float quantity); [|reflexivity].
    destruct (py_float reorder); [|reflexivity].
    simpl. discriminate.
  - intros name quantity. unfold restock_submit, error, ret.
    destruct ((name == "") || (quantity == "")); [reflexivity|].
    destruct (py_float quantity) as [q|]; [|reflexivity].
    unfold restock_ingredient, bind, gets; cbn beta iota.
    destruct (restock_in name q (ingredients (self w))); [simpl; discriminate | reflexivity].
  - intros name price quantity rows. unfold submit_product, error, ret.
    destruct (recipe_rows rows [] quantity) as [[recipe qtext]|]; [|reflexivity].
    destruct name; [reflexivity|]. destruct recipe; [reflexivity|].
    destruct qtext; [reflexivity|].
    destruct (py_float price); [|reflexivity].
    destruct (py_float _); [simpl; discriminate | reflexivity].
  - intros product_name quantity. unfold product_status_submit, error, ret.
    destruct ((product_name == "") || (quantity == "")); [reflexivity|].
    destruct (py_float quantity); [|reflexivity].
    unfold bind, gets; cbn beta iota.
    destruct (next_product product_name (products (self w)));
      [simpl; discriminate | reflexivity].
  - intros c customer rows. unfold submit_order, error, ret.
    destruct (order_rows rows []) as [items|]; [|reflexivity].
    destruct customer; [reflexivity|]. destruct items as [|item items]; [reflexivity|].
    unfold bind, gets; cbn beta iota.
    destruct (list_comp _ _ _); [|reflexivity].
    rewrite create_order_eq.
    destruct (items_in_stock _ _); [simpl; discriminate | reflexivity].
  - intros name roll shifts_input. unfold add_staff_submit, error, ret.
    destruct ((name == "") && (roll == "") && (shifts_input == "")); [reflexivity|].
    destruct (name == ""); [reflexivity|].
    destruct (roll == ""); [reflexivity|].
    destruct (py_int roll); [|reflexivity].
    destruct (shifts_input == ""); [reflexivity|].
    unfold bind, gets; cbn beta iota.
    destruct (find _ (staff (self w))); [reflexivity|].
    destruct (list_comp _ _ _); [reflexivity | simpl; discriminate].
Qed.


(** X18: the add-product form never uses its Initial Quantity field.  The
    loop over the ingredient rows assigns to the variable that holds that
    field, so the result of a submission is the same whatever the field
    contains, and a product that is added gets the quantity typed in the
    last ingredient row. *)
Theorem submit_product_ignores_quantity_field
    (name price : string) (rows : list (string * string)) (w : World) :
  (forall quantity1 quantity2,
     submit_product name price quantity1 rows w = submit_product name price quantity2 rows w) /\
  (forall quantity msg,
     fst (submit_product name price quantity rows w) = Returned (Some (showinfo msg)) ->
     exists recipe p q,
       rows <> [] /\ recipe <> [] /\ name <> "" /\
       py_float price = Some p /\
       py_float (snd (last rows (EmptyString, EmptyString))) = Some q /\
       snd (submit_product name price quantity rows w)
       = (let m := set_products (products (self w) ++ [Product.init name p recipe q]) (self w) in
          {| self := m; disk := m |})).
Proof.
  split.
  - intros quantity1 quantity2. unfold submit_product.
    destruct rows as [|row rows]; [reflexivity|].
    now rewrite (recipe_rows_entry (row :: rows) [] quantity1 quantity2) by discriminate.
  - intros quantity msg. unfold submit_product, error, ret.
    destruct (recipe_rows rows [] quantity) as [[recipe qtext]|] eqn:Hrows; [|discriminate].
    destruct name as [|ch name]; [discriminate|].
    destruct recipe as [|kv recipe]; [discriminate|].
    destruct qtext as [|qc qtext]; [discriminate|].
    destruct (py_float price) as [p|]; [|discriminate].
    destruct (py_float (String qc qtext)) as [q|] eqn:Hq; [|discriminate].
    intros _. destruct (recipe_rows_last _ _ _ _ _ Hrows) as [Hlast Hne].
    assert (Hrows_ne : rows <> []) by (apply Hne; discriminate).
    exists (kv :: recipe), p, q. repeat split; try assumption; try discriminate.
    rewrite <- Hq, Hlast. f_equal. f_equal.
    now apply last_nonempty_default.
Qed.
End Form_facts.

Lemma form_error_changes_nothing_witness :
  snd (submit_order (B := Plain.builtins) Sample.clock "Eve" [("scone", "1")] Sample.shop)
  = Sample.shop.
Proof.
  apply (proj1 (proj2 (proj2 (proj2 (proj2
           (form_error_changes_nothing (B := Plain.builtins) Sample.shop
              (Text "Product(s) not found: scone"))))))).
  reflexivity.
Defined.


Lemma submit_product_ignores_quantity_field_witness :
  exists recipe p q,
    [("flour", "1"); ("sugar", "7")] <> [] /\ recipe <> [] /\ "scone" <> "" /\
    py_float (Builtins := Plain.builtins) "2" = Some p /\
    py_float (Builtins := Plain.builtins)
      (snd (last [("flour", "1"); ("sugar", "7")] (EmptyString, EmptyString))) = Some q /\
    snd (submit_product (B := Plain.builtins) "scone" "2" "50"
           [("flour", "1"); ("sugar", "7")] Sample.shop)
    = (let m :=
         set_products (products (self Sample.shop) ++ [Product.init "scone" p recipe q])
           (self Sample.shop) in
       {| self := m; disk := m |}).
Proof.
  apply (proj2 (submit_product_ignores_quantity_field (B := Plain.builtins) "scone" "2"
                  [("flour", "1"); ("sugar", "7")] Sample.shop)
           "50" (Text "Product added!")).
  reflexivity.
Defined.

(** ** The other forms *)

Section Inventory_forms.
Context {B : Builtins}.

(** X19: the product-stock form adds whatever number its quantity field
    parses to, positive or not, to the first product with the name, leaves
    every other product and list alone, and saves; it asks for no positive
    quantity, unlike the order-update form. *)
Theorem product_status_submit_effect (product_name quantity : string) (w : World) :
  forall q pbefore product pafter,
    product_name <> "" -> quantity <> "" ->
    py_float quantity = Some q ->
    products (self w) = pbefore ++ product :: pafter ->
    Product.name product = product_name ->
    (forall p, In p pbefore -> Product.name p <> product_name) ->
    product_status_submit product_name quantity w
    = (Returned (Some (showinfo (AddedUnits q product_name))),
       let m :=
         set_products
           (pbefore
            ++ Product.init product_name (Product.price product) (Product.recipe product)
                 (Product.quantity product + q) :: pafter) (self w) in
       {| self := m; disk := m |}).
Proof.
  intros q pbefore product pafter Hpn Hqt Hq Hps Hname Hpb.
  assert (Hfp : forall p, In p pbefore -> (Product.name p == product_name) = false)
    by (intros p Hp; apply eqb_false_of_neq; auto).
  assert (Htp : (Product.name product == product_name) = true) by now apply String.eqb_eq.
  unfold product_status_submit.
  rewrite (eqb_false_of_neq _ _ Hpn), (eqb_false_of_neq _ _ Hqt), Hq. cbn [orb].
  unfold bind, gets; cbn beta iota. unfold next_product. rewrite Hps.
  rewrite (find_first (fun p => Product.name p == product_name) _ _ _ Htp Hfp).
  unfold on_product, modify, save_data, ret. cbn beta iota.
  cbn [self products disk]. rewrite Hps.
  rewrite (update_first_first (fun p => Product.name p == product_name));
    [ | exact Htp | exact Hfp ].
  unfold Product.with_quantity. rewrite Hname. reflexivity.
Qed.

(** X20: a successful submission of the add-ingredient form appends one
    ingredient built from its four fields, which must all be non-empty, with
    the two numbers parsed; the low-stock list afterwards is the one before,
    followed by the new ingredient exactly when its quantity is below its
    reorder level. *)
Theorem add_ingredient_submit_effect (name quantity unit reorder : string) (w : World)
    (msg : message) :
  fst (add_ingredient_submit name quantity unit reorder w) = Returned (Some (showinfo msg)) ->
  exists q r,
    name <> "" /\ quantity <> "" /\ unit <> "" /\ reorder <> "" /\
    py_float quantity = Some q /\ py_float reorder = Some r /\
    ingredients (self (snd (add_ingredient_submit name quantity unit reorder w)))
    = ingredients (self w) ++ [Ingredient.init name q unit r] /\
    check_low_stock (self (snd (add_ingredient_submit name quantity unit reorder w)))
    = check_low_stock (self w)
      ++ (if q <? r then [Ingredient.init name q unit r] else []).
Proof.
  unfold add_ingredient_submit, error, ret.
  destruct (existsb _ _) eqn:Hempty; [discriminate|].
  destruct (py_float quantity) as [q|]; [|discriminate].
  destruct (py_float reorder) as [r|]; [|discriminate].
  intros _. exists q, r.
  simpl in Hempty. rewrite !orb_false_iff in Hempty.
  destruct Hempty as (H1 & H2 & H3 & H4 & _).
  apply String.eqb_neq in H1, H2, H3, H4.
  repeat (split; [assumption || reflexivity|]).
  unfold check_low_stock. simpl. rewrite !list_comp_spec, !map_id, filter_app. simpl.
  destruct (q <? r); reflexivity.
Qed.

(** X21: the restock form returns without any message and without any
    change when a field is empty; its success message means that
    [restock_ingredient] was called with the parsed quantity and returned
    True, and its "not found" message that no ingredient has the name. *)
Theorem restock_submit_outcomes (name quantity : string) (w : World) :
  (name = "" \/ quantity = "" -> restock_submit name quantity w = (Returned None, w)) /\
  (forall msg,
     fst (restock_submit name quantity w) = Returned (Some (showinfo msg)) ->
     exists q,
       py_float quantity = Some q /\
       restock_ingredient name q w = (Returned true, snd (restock_submit name quantity w))) /\
  (fst (restock_submit name quantity w)
   = Returned (Some (showerror (Text "Ingredient not found!"))) ->
   forall i, In i (ingredients (self w)) -> Ingredient.name i <> name).
Proof.
  split; [|split].
  - intros Hempty. unfold restock_submit.
    replace ((name == "") || (quantity == "")) with true; [reflexivity|].
    symmetry. apply orb_true_iff.
    destruct Hempty as [->| ->]; [left | right]; reflexivity.
  - intros msg. unfold restock_submit, error, ret.
    destruct ((name == "") || (quantity == "")); [discriminate|].
    destruct (py_float quantity) as [q|]; [|discriminate].
    unfold bind at 1. destruct (restock_ingredient name q w) as [[[|]|e] w1] eqn:Hr;
      try discriminate.
    intros _. exists q. split; [reflexivity|]. rewrite Hr. unfold bind. rewrite Hr. reflexivity.
  - unfold restock_submit, error, ret.
    destruct ((name == "") || (quantity == "")); [discriminate|].
    destruct (py_float quantity) as [q|]; [|intros H; cbn in H; discriminate H].
    unfold restock_ingredient, bind, gets; cbn beta iota.
    destruct (restock_in name q (ingredients (self w))) eqn:Hr; [discriminate|].
    intros _ i Hin Hname. clear - Hr Hin Hname.
    induction (ingredients (self w)) as [|a l IH]; simpl in *; [contradiction|].
    destruct (Ingredient.name a == name) eqn:E; [discriminate|].
    destruct Hin as [<-|Hin].
    + rewrite Hname, String.eqb_refl in E. discriminate.
    + destruct (restock_in name q l); [discriminate | now apply IH].
Qed.
End Inventory_forms.

Lemma product_status_submit_effect_witness :
  product_status_submit (B := Plain.builtins) "cake" "6" Sample.shop
  = (Returned (Some (showinfo (AddedUnits 6 "cake"))),
     let m :=
       set_products
         [ Product.init "bread" 3 [("flour", 2); ("yeast", 1)] 10;
           Product.init "cake" 12 [("flour", 1); ("sugar", 1)] 10 ] Sample.lists in
     {| self := m; disk := m |}).
Proof.
  apply (product_status_submit_effect (B := Plain.builtins) "cake" "6" Sample.shop 6
           [Product.init "bread" 3 [("flour", 2); ("yeast", 1)] 10]
           (Product.init "cake" 12 [("flour", 1); ("sugar", 1)] 4) []);
    try reflexivity; try discriminate.
  intros p [<-|[]]. discriminate.
Defined.

Lemma add_ingredient_submit_effect_witness :
  exists q r,
    "salt" <> "" /\ "1" <> "" /\ "kg" <> "" /\ "3" <> "" /\
    py_float (Builtins := Plain.builtins) "1" = Some q /\
    py_float (Builtins := Plain.builtins) "3" = Some r /\
    ingredients
      (self (snd (add_ingredient_submit (B := Plain.builtins) "salt" "1" "kg" "3" Sample.shop)))
    = ingredients (self Sample.shop) ++ [Ingredient.init "salt" q "kg" r] /\
    check_low_stock
      (self (snd (add_ingredient_submit (B := Plain.builtins) "salt" "1" "kg" "3" Sample.shop)))
    = check_low_stock (self Sample.shop)
      ++ (if q <? r then [Ingredient.init "salt" q "kg" r] else []).
Proof.
  apply (add_ingredient_submit_effect (B := Plain.builtins) "salt" "1" "kg" "3" Sample.shop
           (Text "Ingredient added!")).
  reflexivity.
Defined.

Lemma restock_submit_outcomes_witness :
  restock_submit (B := Plain.builtins) "flour" "" Sample.shop = (Returned None, Sample.shop) /\
  (forall i, In i (ingredients (self Sample.shop)) -> Ingredient.name i <> "salt").
Proof.
  split.
  - apply (proj1 (restock_submit_outcomes (B := Plain.builtins) "flour" "" Sample.shop)).
    now right.
  - apply (proj2 (proj2 (restock_submit_outcomes (B := Plain.builtins) "salt" "4" Sample.shop))).
    reflexivity.
Defined.

(** ** The report views *)

Lemma sold_rows_of_order (m : BakeryManager) (order : Order.t) (items : dict) :
  forall rows total_revenue,
    fold_left
      (fun '(rows, total_revenue) '(product_name, qty) =>
         let price := get_product_price m product_name in
         let revenue := price * qty in
         (rows ++ [mkSoldRow (Order.customer_name order) (Order.order_id order)
                     product_name qty revenue],
          total_revenue + revenue))
      items (rows, total_revenue)
    = (rows
       ++ map (fun '(product_name, qty) =>
                 mkSoldRow (Order.customer_name order) (Order.order_id order)
                   product_name qty (get_product_price m product_name * qty)) items,
       fold_left Z.add
         (map row_revenue
            (map (fun '(product_name, qty) =>
                    mkSoldRow (Order.customer_name order) (Order.order_id order)
                      product_name qty (get_product_price m product_name * qty)) items))
         total_revenue).
Proof.
  induction items as [|[n q] items IH]; intros rows total_revenue; cbn [fold_left map].
  - now rewrite app_nil_r.
  - cbv zeta. rewrite IH, <- app_assoc. reflexivity.
Qed.

(** The lines of the table and the running total of the nested loop. *)
Lemma sold_items_spec (m : BakeryManager) :
  sold_items m
  = (flat_map
       (fun order =>
          map (fun '(product_name, qty) =>
                 mkSoldRow (Order.customer_name order) (Order.order_id order)
                   product_name qty (get_product_price m product_name * qty))
            (Order.items order))
       (filter (fun order => Order.status order == "Completed") (orders m)),
     py_sum
       (map row_revenue
          (flat_map
             (fun order =>
                map (fun '(product_name, qty) =>
                       mkSoldRow (Order.customer_name order) (Order.order_id order)
                         product_name qty (get_product_price m product_name * qty))
                  (Order.items order))
             (filter (fun order => Order.status order == "Completed") (orders m))))).
Proof.
  unfold sold_items, py_sum.
  assert (Hfold : forall os rows total_revenue,
             fold_left
               (fun acc order =>
                  if Order.status order == "Completed" then
                    fold_left
                      (fun '(rows, total_revenue) '(product_name, qty) =>
                         let price := get_product_price m product_name in
                         let revenue := price * qty in
                         (rows ++ [mkSoldRow (Order.customer_name order)
                                     (Order.order_id order) product_name qty revenue],
                          total_revenue + revenue))
                      (Order.items order) acc
                  else acc)
               os (rows, total_revenue)
             = (rows
                ++ flat_map
                     (fun order =>
                        map (fun '(product_name, qty) =>
                               mkSoldRow (Order.customer_name order) (Order.order_id order)
                                 product_name qty (get_product_price m product_name * qty))
                          (Order.items order))
                     (filter (fun order => Order.status order == "Completed") os),
                fold_left Z.add
                  (map row_revenue
                     (flat_map
                        (fun order =>
                           map (fun '(product_name, qty) =>
                                  mkSoldRow (Order.customer_name order)
                                    (Order.order_id order) product_name qty
                                    (get_product_price m product_name * qty))
                             (Order.items order))
                        (filter (fun order => Order.status order == "Completed") os)))
                  total_revenue)).
  { induction os as [|o os IH]; intros rows total_revenue; cbn [fold_left filter].
    - cbn [flat_map map fold_left]. now rewrite app_nil_r.
    - destruct (Order.status o == "Completed").
      + rewrite sold_rows_of_order, IH. cbn [flat_map].
        now rewrite <- app_assoc, map_app, fold_left_app.
      + apply IH. }
  now rewrite Hfold.
Qed.

(** X22: the sold-items view shows one line for each item of each
    completed order, in order, valued at the price the product table holds
    when the view is drawn times the quantity, and its total is the running
    sum of the lines from 0.  After a product is deleted the price used for
    every line of that product is 0, although no order total and not
    [total_sales] has changed. *)
Theorem sold_items_uses_current_prices (m : BakeryManager) :
  fst (sold_items m)
  = flat_map
      (fun order =>
         map (fun '(product_name, qty) =>
                mkSoldRow (Order.customer_name order) (Order.order_id order)
                  product_name qty (get_product_price m product_name * qty))
           (Order.items order))
      (filter (fun order => Order.status order == "Completed") (orders m)) /\
  snd (sold_items m) = py_sum (map row_revenue (fst (sold_items m))) /\
  (forall product_name w,
     self w = m ->
     let w' := exec (delete_product product_name true) w in
     get_product_price (self w') product_name = 0 /\
     (forall row, In row (fst (sold_items (self w'))) ->
                  row_product_name row = product_name ->
                  row_revenue row = 0 * row_qty row) /\
     map Order.total (orders (self w')) = map Order.total (orders m) /\
     total_sales (generate_sales_report (self w')) = total_sales (generate_sales_report m)).
Proof.
  split; [now rewrite sold_items_spec|]. split; [now rewrite sold_items_spec|].
  intros product_name w Hw w'.
  assert (Hprice : get_product_price (self w') product_name = 0).
  { subst w'. unfold get_product_price. simpl. rewrite list_comp_spec, map_id.
    now rewrite next_product_filter_same. }
  split; [exact Hprice|]. split; [|split; now rewrite <- Hw].
  intros row Hin Hname. rewrite sold_items_spec in Hin. cbn [fst] in Hin.
  apply in_flat_map in Hin. destruct Hin as (o & _ & Hin).
  apply in_map_iff in Hin. destruct Hin as ([n q] & <- & _). simpl in Hname. subst n.
  cbn [row_revenue row_qty]. now rewrite Hprice.
Qed.

Lemma sold_items_uses_current_prices_witness :
  get_product_price (self (exec (delete_product "bread" true) Sample.shop)) "bread" = 0 /\
  total_sales (generate_sales_report (self (exec (delete_product "bread" true) Sample.shop)))
  = 6 /\
  forall row,
    In row (fst (sold_items (self (exec (delete_product "bread" true) Sample.shop)))) ->
    row_product_name row = "bread" -> row_revenue row = 0 * row_qty row.
Proof.
  destruct (proj2 (proj2 (sold_items_uses_current_prices Sample.lists))
              "bread" Sample.shop eq_refl) as (Hprice & Hrows & _ & Hsales).
  split; [exact Hprice|]. split; [exact Hsales | exact Hrows].
Defined.


(** ** The add-staff form *)

Section Staff_form.
Context {B : Builtins}.

End Staff_form.


(** ** Stock under the create-order form *)

Section Stock.
Context {B : Builtins}.

(** X5: an order placed through the create-order form never drives a
    stock below zero: the quantities of the form are integers read by
    [int()], and when no product has a negative quantity before the
    submission, none has after it, whatever the form answers. *)
Theorem submit_order_keeps_stock_nonneg
    (c : Order.clock) (customer : string) (rows : list (string * string)) (w : World) :
  stock_nonneg w -> stock_nonneg (exec (submit_order c customer rows) w).
Proof.
  intros Hw. unfold exec, submit_order, error, ret.
  destruct (order_rows rows []) as [items|] eqn:Hrows; [|exact Hw].
  assert (Hwf : dict_wf items)
    by (apply (order_rows_wf rows [] items); [constructor | exact Hrows]).
  destruct customer as [|ch customer]; [exact Hw|].
  destruct items as [|item items]; [exact Hw|].
  unfold bind, gets; cbn beta iota.
  destruct (list_comp _ _ _); [|exact Hw].
  rewrite create_order_eq.
  destruct (items_in_stock (products (self w)) (item :: items)) eqn:Hs; [|exact Hw].
  unfold stock_nonneg. cbn -[deduct_all]. apply deduct_all_nonneg; assumption.
Qed.
End Stock.

Lemma submit_order_keeps_stock_nonneg_witness :
  stock_nonneg
    (exec (submit_order (B := Plain.builtins) Sample.clock "Eve"
             [("bread", "10"); ("cake", "4")]) Sample.shop) /\
  map Product.quantity
    (products (self (exec (submit_order (B := Plain.builtins) Sample.clock "Eve"
                             [("bread", "10"); ("cake", "4")]) Sample.shop)))
  = [0; 0].
Proof.
  split; [|reflexivity].
  apply (submit_order_keeps_stock_nonneg (B := Plain.builtins)).
  unfold stock_nonneg. simpl. repeat constructor; simpl; lia.
Defined.
